(** * Werkleitungs-Import: record validation, geometry construction and the
      import run of [werkleitungs_importer.py]

    A shallow embedding of the class [WerkleitungsImporter].  Spreadsheet
    cells are numbers, empty cells (NaN) or text; a Python float is modelled
    by the rational number it denotes (rounding of float arithmetic is not
    modelled), NaN is a value of its own.  Exceptions are values of an error
    monad; the importer object is threaded through the methods that mutate
    it; the outside world (spreadsheet files, the database server) is a
    record of answers, and what a run does to it is a list of events. *)

From Stdlib Require Import List String Ascii ZArith QArith Qabs Bool Arith Lia.
From Stdlib Require Import Qround Reals Lra Qreals DecimalString.
From Stdlib Require Import Sorted.
Import ListNotations.
Open Scope string_scope.

Set Implicit Arguments.

(** ** Python values and exceptions *)

(** A cell of the data frame as [pd.read_excel] delivers it. *)
Inductive cell : Type :=
| Num (q : Q)          (* an int or a finite float *)
| NaN                  (* an empty cell: float('nan') *)
| Str (s : string).    (* text *)

(** [pd.Timestamp], with the missing value NaT. *)
Inductive Timestamp : Type :=
| NaT
| TS (ns : Z).

(** The exceptions the importer can meet; all derive from [Exception]. *)
Inductive exn : Type :=
| ValueError (msg : string)
| TypeError (msg : string)
| KeyError (key : string)
| LibraryError (msg : string).   (* raised inside pandas or psycopg2 *)

(** [str(e)]: a [KeyError] prints the repr of its key. *)
Definition str_exn (e : exn) : string :=
  match e with
  | ValueError m | TypeError m | LibraryError m => m
  | KeyError k => "'" ++ k ++ "'"
  end.

(** Computations that either return or raise. *)
Inductive result (A : Type) : Type :=
| Ok (a : A)
| Raise (e : exn).
Arguments Ok {A} a.
Arguments Raise {A} e.

Definition bind {A B} (m : result A) (k : A -> result B) : result B :=
  match m with
  | Ok a => k a
  | Raise e => Raise e
  end.

Declare Scope py_scope.
Delimit Scope py_scope with py.
Notation "x <- m ;; k" := (bind m (fun x => k))
  (at level 61, m at next level, right associativity) : py_scope.
Notation "' p <- m ;; k" := (bind m (fun x => match x with p => k end))
  (at level 61, p pattern, m at next level, right associativity) : py_scope.
Open Scope py_scope.

Definition is_ok {A} (m : result A) : bool :=
  match m with Ok _ => true | Raise _ => false end.

(** ** Geometry *)

(** [shapely.geometry.LineString] built from two coordinate pairs: the
    vertex sequence, start first. *)
Record LineString : Type := mkLine {
  x1 : Q; y1 : Q;
  x2 : Q; y2 : Q
}.


(** The square of [line.length]: for a two-vertex line the length is the
    Euclidean distance of the vertices. *)
Definition length_sq (l : LineString) : Q :=
  (x2 l - x1 l) * (x2 l - x1 l) + (y2 l - y1 l) * (y2 l - y1 l).

(** [line.length < t] for a threshold [t >= 0], decided on the squares. *)
Definition length_lt (l : LineString) (t : Q) : bool :=
  negb (Qle_bool (t * t) (length_sq l)).

(** ** What the Python runtime and the libraries contribute

    Rendering of numbers, text-to-integer conversion, date parsing and the
    clock belong to Python, pandas and shapely, not to the importer; they
    are the fields of a class the importer is written against. *)
Class Runtime : Type := {
  (** [f"{x}"] for a number [x] *)
  format_number : Q -> string;
  (** [f"{line.length:.2f}"] *)
  format_length : LineString -> string;
  (** [int(s)] for text [s] *)
  int_of_text : string -> result Z;
  (** [pd.to_datetime(v)] *)
  to_datetime : cell -> result Timestamp;
  (** [datetime.now()] read while the row at the given position is processed *)
  now : nat -> Timestamp;
  (** a coordinate as shapely writes it in well-known text *)
  wkt_number : Q -> string
}.

Section Importer.
Context {RT : Runtime}.

(** [f"{v}"] for a cell. *)
Definition format_cell (v : cell) : string :=
  match v with
  | Num q => format_number q
  | NaN => "nan"
  | Str s => s
  end.

(** [lo <= v <= hi] with integer bounds: false on NaN, a [TypeError] on
    text. *)
Definition between (lo : Z) (v : cell) (hi : Z) : result bool :=
  match v with
  | Num q => Ok (Qle_bool (inject_Z lo) q && Qle_bool q (inject_Z hi))
  | NaN => Ok false
  | Str _ =>
      Raise (TypeError "'<=' not supported between instances of 'int' and 'str'")
  end.

Definition validate_coordinates (x y : cell) : result (bool * string) :=
  in_x <- between 2480000 x 2840000 ;;
  if negb in_x
  then Ok (false, "X-Koordinate " ++ format_cell x ++ " außerhalb Schweizer Bereich")
  else
    in_y <- between 1070000 y 1300000 ;;
    if negb in_y
    then Ok (false, "Y-Koordinate " ++ format_cell y ++ " außerhalb Schweizer Bereich")
    else Ok (true, "OK").

(** The coordinate of a vertex.  [LineString] refuses text; the model has
    no NaN vertex.  Neither case is reached from [create_line_geometry],
    which builds the line only after both endpoints passed the check (see
    [validate_ok_numeric]). *)
Definition coordinate (v : cell) : result Q :=
  match v with
  | Num q => Ok q
  | NaN => Raise (ValueError "cannot build a vertex from nan")
  | Str _ => Raise (TypeError "must be real number, not str")
  end.

Definition LineString_new (xs ys xe ye : cell) : result LineString :=
  a <- coordinate xs ;; b <- coordinate ys ;;
  c <- coordinate xe ;; d <- coordinate ye ;;
  Ok (mkLine a b c d).

Definition create_line_geometry (x_start y_start x_end y_end : cell)
  : result LineString :=
  '(valid_start, msg_start) <- validate_coordinates x_start y_start ;;
  '(valid_end, msg_end) <- validate_coordinates x_end y_end ;;
  if negb valid_start
  then Raise (ValueError ("Startpunkt ungültig: " ++ msg_start))
  else if negb valid_end
  then Raise (ValueError ("Endpunkt ungültig: " ++ msg_end))
  else
    line <- LineString_new x_start y_start x_end y_end ;;
    if length_lt line (1 # 2)
    then Raise (ValueError ("Leitung zu kurz (" ++ format_length line
                              ++ "m), wahrscheinlich Fehleingabe"))
    else Ok line.

(** ** Data frames *)

(** A row as [iterrows] yields it: the cells keyed by column name. *)
Definition Series : Type := list (string * cell).

(** A data frame: the column names and the rows, each aligned with the
    columns.  The index is the default one, 0, 1, 2, ... *)
Record DataFrame : Type := mkFrame {
  columns : list string;
  rows : list (list cell)
}.

Definition iterrows (df : DataFrame) : list (nat * Series) :=
  combine (seq 0 (List.length (rows df))) (map (combine (columns df)) (rows df)).

Fixpoint lookup (key : string) (row : Series) : option cell :=
  match row with
  | [] => None
  | (k, v) :: rest => if String.eqb key k then Some v else lookup key rest
  end.

(** [row[key]] *)
Definition getitem (row : Series) (key : string) : result cell :=
  match lookup key row with
  | Some v => Ok v
  | None => Raise (KeyError key)
  end.

(** [row.get(key, default)] *)
Definition get (row : Series) (key : string) (default : cell) : cell :=
  match lookup key row with
  | Some v => v
  | None => default
  end.

(** [pd.notna(v)] *)
Definition notna (v : cell) : bool :=
  match v with NaN => false | _ => true end.

(** [int(v)]: a float is truncated toward zero, NaN is refused, text is
    parsed. *)
Definition py_int (v : cell) : result Z :=
  match v with
  | Num q => Ok (Z.quot (Qnum q) (Z.pos (Qden q)))
  | NaN => Raise (ValueError "cannot convert float NaN to integer")
  | Str s => int_of_text s
  end.

(** ** The importer *)

(** One entry of [valid_records]. *)
Record segment : Type := mkSegment {
  leitung_id : cell;
  material : cell;
  durchmesser : Z;
  verlegedatum : Timestamp;
  bemerkung : cell;
  geometry : LineString;
  import_datum : Timestamp
}.

(** One entry of [error_records]. *)
Record error_info : Type := mkError {
  zeile : nat;
  fehler_leitung_id : cell;     (* key 'leitung_id' of the error dict *)
  fehler : string
}.

(** The tuple of parameters of one INSERT. *)
Record insert_params : Type := mkInsert {
  p_leitung_id : cell;
  p_material : cell;
  p_durchmesser : Z;
  p_verlegedatum : Timestamp;
  p_bemerkung : cell;
  p_geom_wkt : string;
  p_import_datum : Timestamp
}.

(** An open database connection: which statements it executes without
    raising, and whether its commit goes through. *)
Record Connection : Type := mkConn {
  executes : insert_params -> bool;
  commits : bool
}.

Record WerkleitungsImporter : Type := mkImporter {
  db_config : list (string * string);
  conn : option Connection;
  error_records : list error_info
}.

Definition init (cfg : list (string * string)) : WerkleitungsImporter :=
  {| db_config := cfg; conn := None; error_records := [] |}.

Definition append_error (self : WerkleitungsImporter) (e : error_info)
  : WerkleitungsImporter :=
  {| db_config := db_config self;
     conn := conn self;
     error_records := (error_records self ++ [e])%list |}.

Record GeoDataFrame : Type := mkGdf {
  records : list segment;
  crs : string
}.

Definition empty (gdf : GeoDataFrame) : bool :=
  match records gdf with [] => true | _ => false end.

(** The body of the [try] block of [process_records] for one row. *)
Definition try_row (idx : nat) (row : Series) : result segment :=
  xs <- getitem row "X_Start" ;;
  ys <- getitem row "Y_Start" ;;
  xe <- getitem row "X_End" ;;
  ye <- getitem row "Y_End" ;;
  geom <- create_line_geometry xs ys xe ye ;;
  id <- getitem row "Leitung_ID" ;;
  mat <- getitem row "Material" ;;
  d <- getitem row "Durchmesser_mm" ;;
  dz <- py_int d ;;
  v <- getitem row "Verlegedatum" ;;
  ts <- to_datetime v ;;
  b <- getitem row "Bemerkung" ;;
  Ok {| leitung_id := id;
        material := mat;
        durchmesser := dz;
        verlegedatum := ts;
        bemerkung := if notna b then b else Str "";
        geometry := geom;
        import_datum := now idx |}.

(** The [except] branch: the entry appended to [self.error_records]. *)
Definition error_of (idx : nat) (row : Series) (e : exn) : error_info :=
  {| zeile := (idx + 2)%nat;
     fehler_leitung_id := get row "Leitung_ID" (Str "UNBEKANNT");
     fehler := str_exn e |}.

(** One iteration of the loop over [df.iterrows()]. *)
Definition process_row (st : list segment * WerkleitungsImporter)
  (ir : nat * Series) : list segment * WerkleitungsImporter :=
  let '(valid_records, self) := st in
  let '(idx, row) := ir in
  match try_row idx row with
  | Ok record => ((valid_records ++ [record])%list, self)
  | Raise e => (valid_records, append_error self (error_of idx row e))
  end.

Definition process_rows (self : WerkleitungsImporter)
  (irs : list (nat * Series)) : list segment * WerkleitungsImporter :=
  fold_left process_row irs ([], self).

Definition process_records (self : WerkleitungsImporter) (df : DataFrame)
  : GeoDataFrame * WerkleitungsImporter :=
  let '(valid_records, self') := process_rows self (iterrows df) in
  ({| records := valid_records; crs := "EPSG:2056" |}, self').

(** ** Text helpers of Python *)

(** [str.isspace] on one character, for the ASCII range. *)
Definition is_space (c : ascii) : bool :=
  let n := nat_of_ascii c in
  (((9 <=? n) && (n <=? 13)) || ((28 <=? n) && (n <=? 32)))%nat.

Fixpoint lstrip (s : string) : string :=
  match s with
  | EmptyString => EmptyString
  | String c rest => if is_space c then lstrip rest else s
  end.

Fixpoint rstrip (s : string) : string :=
  match s with
  | EmptyString => EmptyString
  | String c rest =>
      match rstrip rest with
      | EmptyString => if is_space c then EmptyString else String c EmptyString
      | kept => String c kept
      end
  end.

(** [s.strip()] *)
Definition strip (s : string) : string := rstrip (lstrip s).

(** [s.replace(old, new)] for a non-empty [old]: every occurrence, left to
    right, without overlap; [skip] counts the characters of a match still
    to be dropped. *)
Fixpoint replace_from (skip : nat) (old new s : string) : string :=
  match s with
  | EmptyString => EmptyString
  | String c rest =>
      match skip with
      | S k => replace_from k old new rest
      | O =>
          if prefix old s
          then new ++ replace_from (String.length old - 1)%nat old new rest
          else String c (replace_from 0 old new rest)
      end
  end.

Definition replace (old new s : string) : string := replace_from 0 old new s.

(** ** Reading the spreadsheet *)

(** The outside world of one run: what [pd.read_excel] returns for a path
    ([None] when it raises) and what [psycopg2.connect] returns for a
    configuration ([None] when it raises). *)
Record World : Type := mkWorld {
  pd_read_excel : string -> option DataFrame;
  psycopg2_connect : list (string * string) -> option Connection
}.

Definition required_columns : list string :=
  ["Leitung_ID"; "Material"; "Durchmesser_mm";
   "X_Start"; "Y_Start"; "X_End"; "Y_End";
   "Verlegedatum"; "Bemerkung"].

Definition is_text (v : cell) : bool :=
  match v with Str _ => true | _ => false end.

(** Column [j] has dtype object: it holds text. *)
Definition object_column (df : DataFrame) (j : nat) : bool :=
  existsb (fun r => is_text (nth j r NaN)) (rows df).

(** One element under [.str.strip()]: text is stripped, anything else
    becomes NaN. *)
Definition str_strip (v : cell) : cell :=
  match v with
  | Str s => Str (strip s)
  | _ => NaN
  end.

Definition strip_row (df : DataFrame) (r : list cell) : list cell :=
  map (fun jc => if object_column df (fst jc) then str_strip (snd jc) else snd jc)
      (combine (seq 0 (List.length r)) r).

Definition strip_object_columns (df : DataFrame) : DataFrame :=
  {| columns := columns df; rows := map (strip_row df) (rows df) |}.

Definition read_excel (W : World) (filepath : string) : option DataFrame :=
  match pd_read_excel W filepath with
  | None => None
  | Some df =>
      let missing :=
        filter (fun col => negb (existsb (String.eqb col) (columns df)))
               required_columns in
      match missing with
      | _ :: _ => None
      | [] => Some (strip_object_columns df)
      end
  end.

(** ** Writing to the database and the error report *)

(** What a run does to the outside world. *)
Inductive event : Type :=
| Executed (p : insert_params)
| Commit
| Rollback
| CsvWritten (path encoding : string) (content : list error_info).

(** [line.wkt].  Modelled from the spec: shapely's writer is not part of
    the repository; the form is [LINESTRING (x1 y1, x2 y2)], the numbers
    as the runtime renders them. *)
Definition wkt (l : LineString) : string :=
  "LINESTRING (" ++ wkt_number (x1 l) ++ " " ++ wkt_number (y1 l) ++ ", "
                 ++ wkt_number (x2 l) ++ " " ++ wkt_number (y2 l) ++ ")".

(** The parameter tuple [write_to_database] builds from a row. *)
Definition insert_of (r : segment) : insert_params :=
  {| p_leitung_id := leitung_id r;
     p_material := material r;
     p_durchmesser := durchmesser r;
     p_verlegedatum := verlegedatum r;
     p_bemerkung := bemerkung r;
     p_geom_wkt := wkt (geometry r);
     p_import_datum := import_datum r |}.

Definition connect_db (self : WerkleitungsImporter) (W : World)
  : bool * WerkleitungsImporter :=
  match psycopg2_connect W (db_config self) with
  | Some c =>
      (true, {| db_config := db_config self;
                conn := Some c;
                error_records := error_records self |})
  | None => (false, self)
  end.

(** The loop of [cursor.execute] calls: stops at the first statement that
    raises. *)
Fixpoint execute_all (c : Connection) (ps : list insert_params)
  : bool * list event :=
  match ps with
  | [] => (true, [])
  | p :: rest =>
      if executes c p
      then let '(ok, evs) := execute_all c rest in (ok, Executed p :: evs)
      else (false, [])
  end.

Definition write_to_database (self : WerkleitungsImporter)
  (gdf : GeoDataFrame) : bool * list event :=
  match conn self with
  | None => (false, [])
  | Some c =>
      let '(ok, evs) := execute_all c (map insert_of (records gdf)) in
      if ok && commits c
      then (true, (evs ++ [Commit])%list)
      else (false, (evs ++ [Rollback])%list)
  end.

Definition save_error_report (self : WerkleitungsImporter)
  (output_path : string) : list event :=
  match error_records self with
  | [] => []
  | _ :: _ => [CsvWritten output_path "utf-8-sig" (error_records self)]
  end.

Definition run_import (self : WerkleitungsImporter) (W : World)
  (excel_path : string) : bool * WerkleitungsImporter * list event :=
  match read_excel W excel_path with
  | None => (false, self, [])
  | Some df =>
      let '(gdf, self1) := process_records self df in
      if empty gdf then (false, self1, [])
      else
        let '(connected, self2) := connect_db self1 W in
        if negb connected then (false, self2, [])
        else
          let '(success, written) := write_to_database self2 gdf in
          let error_file := replace ".xlsx" "_fehler.csv" excel_path in
          let report := save_error_report self2 error_file in
          (success, self2, (written ++ report)%list)
  end.

End Importer.

(** ** Reading well-known text back *)

(** Modelled from the spec: the reader of the canonical text form
    [LINESTRING (x1 y1, x2 y2)] is the spatial store's ([ST_GeomFromText]),
    which is not part of the repository.  It is written against a reader
    of single numbers and returns the vertices in the order of the text. *)
Module WktReader.



Section Reader.
Variable read_number : string -> option Q.



End Reader.



End WktReader.

(** ** A runtime to evaluate the importer on concrete rows

    Decimal rendering of numbers, integers from decimal text and ISO
    dates [YYYY-MM-DD]: the part of Python and pandas that the test
    files of [dummy_data_generator.py] exercise. *)
Module Reference.

Definition show_Z (z : Z) : string :=
  DecimalString.NilZero.string_of_int (Z.to_int z).

Definition read_Z (s : string) : option Z :=
  option_map Z.of_int (DecimalString.NilZero.int_of_string s).

(** The digits of [r / d] after the decimal point, [0 <= r < d]. *)
Fixpoint fraction_digits (fuel : nat) (r d : Z) : string :=
  match fuel with
  | O => EmptyString
  | S k =>
      if (r =? 0)%Z then EmptyString
      else show_Z (10 * r / d) ++ fraction_digits k ((10 * r) mod d) d
  end.

Definition show_Q (q : Q) : string :=
  let n := Qnum q in
  let d := Z.pos (Qden q) in
  let i := Z.quot n d in
  let r := Z.abs (Z.rem n d) in
  if (r =? 0)%Z then show_Z i
  else (if (n <? 0)%Z && (i =? 0)%Z then "-" else "")
         ++ show_Z i ++ "." ++ fraction_digits 17 r d.


(** [f"{v:.2f}"] of the length: the hundredths, rounded. *)
Definition show_length (l : LineString) : string :=
  let sq := length_sq l in
  let hundredths := ((Z.sqrt (40000 * Qnum sq / Z.pos (Qden sq)) + 1) / 2)%Z in
  show_Z (hundredths / 100) ++ "."
    ++ show_Z (hundredths mod 100 / 10) ++ show_Z (hundredths mod 10).

Definition int_text (s : string) : result Z :=
  match read_Z s with
  | Some z => Ok z
  | None =>
      Raise (ValueError ("invalid literal for int() with base 10: '" ++ s ++ "'"))
  end.

Definition days_in_month (y m : Z) : Z :=
  if (m =? 2)%Z
  then if ((y mod 4 =? 0) && (negb (y mod 100 =? 0) || (y mod 400 =? 0)))%Z
       then 29 else 28
  else if ((m =? 4) || (m =? 6) || (m =? 9) || (m =? 11))%Z then 30 else 31.

(** Days from 1970-01-01 to the civil date [y-m-d]. *)
Definition days_from_civil (y m d : Z) : Z :=
  let y' := if (m <=? 2)%Z then (y - 1)%Z else y in
  let era := (y' / 400)%Z in
  let yoe := (y' - era * 400)%Z in
  let mp := if (m <=? 2)%Z then (m + 9)%Z else (m - 3)%Z in
  let doy := ((153 * mp + 2) / 5 + d - 1)%Z in
  let doe := (yoe * 365 + yoe / 4 - yoe / 100 + doy)%Z in
  (era * 146097 + doe - 719468)%Z.

Definition read_digits (s : string) : option Z :=
  option_map Z.of_uint (DecimalString.NilEmpty.uint_of_string s).

Definition iso_date (s : string) : option Z :=
  if negb (String.length s =? 10)%nat then None
  else if negb (String.eqb (substring 4 1 s) "-" && String.eqb (substring 7 1 s) "-")
  then None
  else
    match read_digits (substring 0 4 s), read_digits (substring 5 2 s),
          read_digits (substring 8 2 s) with
    | Some y, Some m, Some d =>
        if ((1 <=? m) && (m <=? 12) && (1 <=? d) && (d <=? days_in_month y m))%Z
        then Some (days_from_civil y m d * 86400000000000)%Z
        else None
    | _, _, _ => None
    end.

Definition datetime_of (v : cell) : result Timestamp :=
  match v with
  | Str s =>
      match iso_date s with
      | Some ns => Ok (TS ns)
      | None =>
          Raise (LibraryError ("Unknown datetime string format, unable to parse: " ++ s))
      end
  | NaN => Ok NaT
  | Num q => Ok (TS (Qfloor q))
  end.

#[export] Instance runtime : Runtime := {
  format_number := show_Q;
  format_length := show_length;
  int_of_text := int_text;
  to_datetime := datetime_of;
  now := fun idx => TS (1700000000000000000 + Z.of_nat idx);
  wkt_number := show_Q
}.

(** *** Sample rows, after the scenarios of the test-data generator *)

Definition row_of (id material diameter xs ys xe ye date remark : cell)
  : list cell :=
  [id; material; diameter; xs; ys; xe; ye; date; remark].

Definition frame (rs : list (list cell)) : DataFrame :=
  {| columns := required_columns; rows := rs |}.

(** Scenario A: 100 units east and 100 units north. *)
Definition row_valid : list cell :=
  row_of (Str "L_00001") (Str "PE") (Num 150)
         (Num 2683000) (Num 1248000) (Num 2683100) (Num 1248100)
         (Str "2020-01-15") (Str "Hauptleitung Quartier").

(** Scenario C: X_Start far outside the envelope. *)
Definition row_x_outside : list cell :=
  row_of (Str "L_ERR01") (Str "PVC") (Num 100)
         (Num 1000000) (Num 1248000) (Num 2683100) (Num 1248100)
         (Str "2001-05-20") (Str "FEHLER: Koordinate außerhalb").

(** Scenario B: the end point 0.1 units from the start point. *)
Definition row_too_short : list cell :=
  row_of (Str "L_ERR02") (Str "PE") (Num 80)
         (Num 2683000) (Num 1248000) (Num (26830001 # 10)) (Num (12480001 # 10))
         (Str "1999-12-31") (Str "FEHLER: Zu kurz").

(** Scenario D: no end coordinate. *)
Definition row_missing_end : list cell :=
  row_of (Str "L_ERR03") (Str "Stahl") (Num 200)
         (Num 2683000) (Num 1248000) NaN (Num 1248100)
         (Str "1987-03-02") (Str "FEHLER: Fehlende Koordinate").

(** Scenario E: a date that is none. *)
Definition row_bad_date : list cell :=
  row_of (Str "L_ERR04") (Str "Grauguss") (Num 250)
         (Num 2683000) (Num 1248000) (Num 2683100) (Num 1248100)
         (Str "32.13.2020") (Str "FEHLER: Ungültiges Datum").


(** A fractional diameter. *)
Definition row_fractional : list cell :=
  row_of (Str "L_00003") (Str "PVC") (Num (1509 # 10))
         (Num 2683000) (Num 1248000) (Num 2683100) (Num 1248100)
         (Str "2020-01-15") NaN.

(** An empty identifier cell. *)
Definition row_no_id : list cell :=
  row_of NaN (Str "PE") (Num 100)
         (Num 1000000) (Num 1248000) (Num 2683100) (Num 1248100)
         (Str "2020-01-15") NaN.

(** The row as [iterrows] yields it from a frame with the required
    columns. *)
Definition series_of (r : list cell) : Series := combine required_columns r.

(** A frame without the column Leitung_ID, as [process_records] can be
    handed directly; its one row starts outside the envelope. *)
Definition frame_without_id : DataFrame :=
  {| columns := ["Material"; "Durchmesser_mm"; "X_Start"; "Y_Start";
                 "X_End"; "Y_End"; "Verlegedatum"; "Bemerkung"];
     rows := [[Str "PE"; Num 100; Num 1000000; Num 1248000;
               Num 2683100; Num 1248100; Str "2020-01-15"; NaN]] |}.

(** What [row_valid] becomes at position 0. *)
Definition segment_valid : segment :=
  {| leitung_id := Str "L_00001";
     material := Str "PE";
     durchmesser := 150;
     verlegedatum := TS 1579046400000000000;
     bemerkung := Str "Hauptleitung Quartier";
     geometry := mkLine 2683000 1248000 2683100 1248100;
     import_datum := TS 1700000000000000000 |}.

(** What [row_x_outside] leaves in the accumulator from position [idx]. *)
Definition error_x_outside (idx : nat) : error_info :=
  {| zeile := (idx + 2)%nat;
     fehler_leitung_id := Str "L_ERR01";
     fehler := "Startpunkt ungültig: X-Koordinate 1000000 außerhalb Schweizer Bereich" |}.

(** A server that takes every statement. *)
Definition good_connection : Connection :=
  {| executes := fun _ => true; commits := true |}.

Definition world_of (path : string) (df : DataFrame) : World :=
  {| pd_read_excel := fun p => if String.eqb p path then Some df else None;
     psycopg2_connect := fun _ => Some good_connection |}.

(** Two runs on one importer: a file with a rejected row, then a file
    with valid rows only. *)
Definition first_run : bool * WerkleitungsImporter * list event :=
  run_import (init []) (world_of "a.xlsx" (frame [row_valid; row_x_outside]))
             "a.xlsx".

Definition second_run : bool * WerkleitungsImporter * list event :=
  run_import (snd (fst first_run)) (world_of "b.xlsx" (frame [row_valid]))
             "b.xlsx".

End Reference.

(** ** Positions in text and in column lists *)

(** [sub in s] *)
Fixpoint occurs_in (sub s : string) : bool :=
  match s with
  | EmptyString => prefix sub EmptyString
  | String _ rest => prefix sub s || occurs_in sub rest
  end.

(** The position of the first column named [key]. *)
Fixpoint index_of (key : string) (cols : list string) : option nat :=
  match cols with
  | [] => None
  | c :: rest =>
      if String.eqb key c then Some 0%nat
      else option_map S (index_of key rest)
  end.

(** ** The generator of test data, [dummy_data_generator.py] *)
Module Generator.

(** One entry of the list [records]: the dict with its nine keys.  The
    value [None] is held as NaN, which is what the data frame built from
    the records holds in a column of floats. *)
Record record : Type := mkRecord {
  Leitung_ID : cell;
  Material : cell;
  Durchmesser_mm : cell;
  X_Start : cell;
  Y_Start : cell;
  X_End : cell;
  Y_End : cell;
  Verlegedatum : cell;
  Bemerkung : cell
}.

Inductive failure : Type :=
| IndexError     (* list index out of range *)
| TypeError.     (* text + 0.1 *)

Inductive outcome (A : Type) : Type :=
| Built (a : A)
| Failed (e : failure).
Arguments Built {A} a.
Arguments Failed {A} e.

Definition and_then {A B} (m : outcome A) (k : A -> outcome B) : outcome B :=
  match m with
  | Built a => k a
  | Failed e => Failed e
  end.

(** [records[i]] *)
Definition item (records : list record) (i : nat) : outcome record :=
  match nth_error records i with
  | Some r => Built r
  | None => Failed IndexError
  end.

(** [v + 0.1] *)
Definition plus_tenth (v : cell) : outcome cell :=
  match v with
  | Num q => Built (Num (q + (1 # 10)))
  | NaN => Built NaN
  | Str _ => Failed TypeError
  end.

(** The four faulty copies. *)
Definition error_record_1 (r : record) : record :=
  {| Leitung_ID := Str "L_ERR01";
     Material := Material r;
     Durchmesser_mm := Durchmesser_mm r;
     X_Start := Num 1000000;
     Y_Start := Y_Start r;
     X_End := X_End r;
     Y_End := Y_End r;
     Verlegedatum := Verlegedatum r;
     Bemerkung := Str "FEHLER: Koordinate außerhalb" |}.

Definition error_record_2 (r : record) (x_end y_end : cell) : record :=
  {| Leitung_ID := Str "L_ERR02";
     Material := Material r;
     Durchmesser_mm := Durchmesser_mm r;
     X_Start := X_Start r;
     Y_Start := Y_Start r;
     X_End := x_end;
     Y_End := y_end;
     Verlegedatum := Verlegedatum r;
     Bemerkung := Str "FEHLER: Zu kurz" |}.

Definition error_record_3 (r : record) : record :=
  {| Leitung_ID := Str "L_ERR03";
     Material := Material r;
     Durchmesser_mm := Durchmesser_mm r;
     X_Start := X_Start r;
     Y_Start := Y_Start r;
     X_End := NaN;
     Y_End := Y_End r;
     Verlegedatum := Verlegedatum r;
     Bemerkung := Str "FEHLER: Fehlende Koordinate" |}.

Definition error_record_4 (r : record) : record :=
  {| Leitung_ID := Str "L_ERR04";
     Material := Material r;
     Durchmesser_mm := Durchmesser_mm r;
     X_Start := X_Start r;
     Y_Start := Y_Start r;
     X_End := X_End r;
     Y_End := Y_End r;
     Verlegedatum := Str "32.13.2020";
     Bemerkung := Str "FEHLER: Ungültiges Datum" |}.

(** The cells of a record in the order of its keys. *)
Definition values (r : record) : list cell :=
  [Leitung_ID r; Material r; Durchmesser_mm r;
   X_Start r; Y_Start r; X_End r; Y_End r;
   Verlegedatum r; Bemerkung r].

(** [pd.DataFrame(records)]: the keys of the dicts become the columns; an
    empty list gives a frame without columns. *)
Definition to_frame (records : list record) : DataFrame :=
  {| columns := match records with [] => [] | _ :: _ => required_columns end;
     rows := map values records |}.

(** [generate_test_data(num_records, include_errors)].  The record built
    in iteration [i] from the random draws is [draw i]. *)
Definition generate_test_data (draw : nat -> record) (num_records : nat)
  (include_errors : bool) : outcome DataFrame :=
  let records := map draw (seq 0 num_records) in
  if include_errors && (10 <=? num_records)%nat
  then
    and_then (item records 5) (fun r5 =>
    let records1 := (records ++ [error_record_1 r5])%list in
    and_then (item records1 10) (fun r10 =>
    and_then (plus_tenth (X_Start r10)) (fun x_end =>
    and_then (plus_tenth (Y_Start r10)) (fun y_end =>
    let records2 := (records1 ++ [error_record_2 r10 x_end y_end])%list in
    and_then (item records2 15) (fun r15 =>
    let records3 := (records2 ++ [error_record_3 r15])%list in
    and_then (item records3 20) (fun r20 =>
    let records4 := (records3 ++ [error_record_4 r20])%list in
    Built (to_frame records4)))))))
  else Built (to_frame records).

End Generator.

(** ** Further sample data *)
Module Samples.
Import Reference.

(** A spreadsheet whose diameter column holds text in its second row. *)
Definition frame_text_diameter : DataFrame :=
  frame [row_valid;
         row_of (Str "L_00009") (Str "PVC") (Str " unbekannt ")
                (Num 2683000) (Num 1248000) (Num 2683100) (Num 1248100)
                (Str "2020-01-15") NaN].


(** Records as the generator draws them: 50 units east and north, the
    start moving east with the position. *)
Definition sample_draw (i : nat) : Generator.record :=
  {| Generator.Leitung_ID := Str "L_00001";
     Generator.Material := Str "PE";
     Generator.Durchmesser_mm := Num 100;
     Generator.X_Start := Num (inject_Z (2683000 + Z.of_nat i));
     Generator.Y_Start := Num 1248000;
     Generator.X_End := Num (inject_Z (2683050 + Z.of_nat i));
     Generator.Y_End := Num 1248050;
     Generator.Verlegedatum := Str "2020-01-15";
     Generator.Bemerkung := Str "" |}.

End Samples.

(** * Properties *)

(** ** Vocabulary of the specification *)

(** [q] lies in the closed interval from [lo] to [hi]. *)
Definition within (lo hi : Z) (q : Q) : Prop :=
  (inject_Z lo <= q)%Q /\ (q <= inject_Z hi)%Q.

(** Both values are numbers inside the plausible coordinate envelope. *)
Definition in_envelope (x y : cell) : Prop :=
  exists qx qy, x = Num qx /\ y = Num qy /\
    within 2480000 2840000 qx /\ within 1070000 1300000 qy.

(** The value is missing (NaN) or a number outside the interval. *)
Definition outside (lo hi : Z) (v : cell) : Prop :=
  v = NaN \/ exists q, v = Num q /\ ((q < inject_Z lo)%Q \/ (inject_Z hi < q)%Q).

(** The Euclidean distance of the points (a, b) and (c, d). *)
Definition distance (a b c d : Q) : R :=
  sqrt ((Q2R c - Q2R a) * (Q2R c - Q2R a) + (Q2R d - Q2R b) * (Q2R d - Q2R b)).

(** The entries a batch leaves in [valid_records] and in [error_records]. *)
Section Outcomes.
Context {RT : Runtime}.

Definition accepted_of (ir : nat * Series) : list segment :=
  match try_row (fst ir) (snd ir) with
  | Ok record => [record]
  | Raise _ => []
  end.

Definition rejected_of (ir : nat * Series) : list error_info :=
  match try_row (fst ir) (snd ir) with
  | Ok _ => []
  | Raise e => [error_of (fst ir) (snd ir) e]
  end.

(** The importer after the entries [es] were appended to its accumulator. *)
Definition extend (self : WerkleitungsImporter) (es : list error_info)
  : WerkleitungsImporter :=
  {| db_config := db_config self;
     conn := conn self;
     error_records := (error_records self ++ es)%list |}.

(** The row holds the nine required cells. *)
Definition row_cells (row : Series)
  (id mat dm xs ys xe ye date remark : cell) : Prop :=
  lookup "Leitung_ID" row = Some id /\
  lookup "Material" row = Some mat /\
  lookup "Durchmesser_mm" row = Some dm /\
  lookup "X_Start" row = Some xs /\
  lookup "Y_Start" row = Some ys /\
  lookup "X_End" row = Some xe /\
  lookup "Y_End" row = Some ye /\
  lookup "Verlegedatum" row = Some date /\
  lookup "Bemerkung" row = Some remark.

End Outcomes.

(** ** Coordinates and geometry *)

Section Geometry.
Context {RT : Runtime}.

Lemma between_num lo hi q :
  between lo (Num q) hi = Ok true <-> within lo hi q.
Proof.
  unfold between, within.
  rewrite <- !Qle_bool_iff.
  split.
  - intros H. injection H as H. now apply andb_true_iff in H.
  - intros H. f_equal. now apply andb_true_iff.
Qed.

Lemma between_outside lo hi v :
  outside lo hi v -> between lo v hi = Ok false.
Proof.
  intros [-> | (q & -> & H)]; [reflexivity |].
  unfold between. f_equal.
  apply andb_false_iff.
  destruct H as [H | H]; [left | right];
    apply not_true_iff_false; rewrite Qle_bool_iff;
    now apply Qlt_not_le.
Qed.

Lemma between_true lo hi v :
  between lo v hi = Ok true <-> exists q, v = Num q /\ within lo hi q.
Proof.
  split.
  - destruct v as [q | | s]; try discriminate.
    intros H. exists q. split; [reflexivity | now apply between_num].
  - intros (q & -> & H). now apply between_num.
Qed.

(** A passed check says "OK" and both values are numbers in range. *)
Lemma validate_ok_numeric x y m :
  validate_coordinates x y = Ok (true, m) <-> m = "OK" /\ in_envelope x y.
Proof.
  unfold validate_coordinates, in_envelope.
  split.
  - destruct (between 2480000 x 2840000) as [[|] |] eqn:Hx; simpl; try discriminate.
    destruct (between 1070000 y 1300000) as [[|] |] eqn:Hy; simpl; try discriminate.
    intros H. injection H as <-.
    apply between_true in Hx as (qx & -> & Hx).
    apply between_true in Hy as (qy & -> & Hy).
    split; [reflexivity | now exists qx, qy].
  - intros (-> & qx & qy & -> & -> & Hx & Hy).
    apply between_num in Hx, Hy. now rewrite Hx, Hy.
Qed.

(** C3: the plausibility check passes exactly for numbers with x in
    [2480000, 2840000] and y in [1070000, 1300000]; an x that is missing
    (NaN) or out of range fails with the X message whatever y is; with x in
    range, a y that is missing or out of range fails with the Y message;
    text raises a [TypeError] and so never passes. *)
Theorem validate_coordinates_envelope (x y : cell) :
  (validate_coordinates x y = Ok (true, "OK") <-> in_envelope x y)
  /\ (outside 2480000 2840000 x ->
      validate_coordinates x y =
        Ok (false, "X-Koordinate " ++ format_cell x ++ " außerhalb Schweizer Bereich"))
  /\ ((exists q, x = Num q /\ within 2480000 2840000 q) ->
      outside 1070000 1300000 y ->
      validate_coordinates x y =
        Ok (false, "Y-Koordinate " ++ format_cell y ++ " außerhalb Schweizer Bereich"))
  /\ (is_text x = true \/
      ((exists q, x = Num q /\ within 2480000 2840000 q) /\ is_text y = true) ->
      exists msg, validate_coordinates x y = Raise (TypeError msg)).
Proof.
  repeat split.
  - intros H. now apply validate_ok_numeric in H.
  - intros H. now apply validate_ok_numeric.
  - intros H. unfold validate_coordinates.
    now rewrite (between_outside H).
  - intros Hx Hy. unfold validate_coordinates.
    apply between_true in Hx. rewrite Hx. simpl.
    now rewrite (between_outside Hy).
  - intros [Hx | [Hx Hy]].
    + destruct x; try discriminate. now eexists.
    + unfold validate_coordinates.
      apply between_true in Hx. rewrite Hx. simpl.
      destruct y; try discriminate. now eexists.
Qed.

Lemma Q2R_length_sq a b c d :
  Q2R (length_sq (mkLine a b c d)) =
  ((Q2R c - Q2R a) * (Q2R c - Q2R a) + (Q2R d - Q2R b) * (Q2R d - Q2R b))%R.
Proof.
  unfold length_sq. simpl.
  now rewrite Q2R_plus, !Q2R_mult, !Q2R_minus.
Qed.

Lemma half_is_sqrt : (1 / 2 = sqrt (1 / 4))%R.
Proof.
  replace (1 / 4)%R with ((1 / 2) * (1 / 2))%R by lra.
  rewrite sqrt_square; lra.
Qed.

(** The comparison on the squares decides the comparison of the distance
    with one half. *)
Lemma length_lt_half a b c d :
  length_lt (mkLine a b c d) (1 # 2) = true <-> (distance a b c d < 1 / 2)%R.
Proof.
  unfold length_lt, distance.
  rewrite negb_true_iff, <- not_true_iff_false, Qle_bool_iff.
  rewrite <- Q2R_length_sq.
  set (L := length_sq (mkLine a b c d)).
  assert (HL : (0 <= Q2R L)%R).
  { unfold L. rewrite Q2R_length_sq.
    pose proof (Rle_0_sqr (Q2R c - Q2R a)) as Hx.
    pose proof (Rle_0_sqr (Q2R d - Q2R b)) as Hy.
    unfold Rsqr in Hx, Hy. lra. }
  assert (Hq : Q2R ((1 # 2) * (1 # 2)) = (1 / 4)%R).
  { rewrite Q2R_mult. unfold Q2R. simpl. field. }
  split.
  - intros H. rewrite half_is_sqrt.
    apply sqrt_lt_1_alt. split; [exact HL |].
    apply Rnot_le_lt. intros Hle. apply H.
    apply Rle_Qle. now rewrite Hq.
  - intros H Hle. apply Qle_Rle in Hle. rewrite Hq in Hle.
    rewrite half_is_sqrt in H.
    apply sqrt_lt_0_alt in H. lra.
Qed.

(** Between two numeric endpoints inside the envelope only the length
    decides. *)
Lemma create_line_geometry_valid a b c d :
  in_envelope (Num a) (Num b) -> in_envelope (Num c) (Num d) ->
  create_line_geometry (Num a) (Num b) (Num c) (Num d) =
    if length_lt (mkLine a b c d) (1 # 2)
    then Raise (ValueError ("Leitung zu kurz (" ++ format_length (mkLine a b c d)
                              ++ "m), wahrscheinlich Fehleingabe"))
    else Ok (mkLine a b c d).
Proof.
  intros Hs He.
  assert (Hs' : validate_coordinates (Num a) (Num b) = Ok (true, "OK"))
    by now apply validate_ok_numeric.
  assert (He' : validate_coordinates (Num c) (Num d) = Ok (true, "OK"))
    by now apply validate_ok_numeric.
  unfold create_line_geometry. now rewrite Hs', He'.
Qed.

(** Geometry construction returns exactly for endpoints inside the
    envelope that are at least 0.5 apart. *)
Lemma create_line_geometry_ok xs ys xe ye :
  is_ok (create_line_geometry xs ys xe ye) = true <->
  in_envelope xs ys /\ in_envelope xe ye /\
  exists a b c d, xs = Num a /\ ys = Num b /\ xe = Num c /\ ye = Num d /\
    (1 / 2 <= distance a b c d)%R.
Proof.
  split.
  - intros H.
    assert (Hv : in_envelope xs ys /\ in_envelope xe ye).
    { unfold create_line_geometry in H.
      destruct (validate_coordinates xs ys) as [[vs ms] |] eqn:Hs;
        [| discriminate].
      destruct (validate_coordinates xe ye) as [[ve me] |] eqn:He;
        [| discriminate].
      simpl in H. destruct vs, ve; try discriminate.
      apply validate_ok_numeric in Hs, He. now split. }
    destruct Hv as [Hs He]. repeat split; try assumption.
    pose proof Hs as (a & b & -> & -> & _).
    pose proof He as (c & d & -> & -> & _).
    exists a, b, c, d. repeat split.
    rewrite (create_line_geometry_valid Hs He) in H.
    destruct (length_lt (mkLine a b c d) (1 # 2)) eqn:E; [discriminate |].
    apply Rnot_lt_le. intros Hlt. apply length_lt_half in Hlt. congruence.
  - intros (Hs & He & a & b & c & d & -> & -> & -> & -> & Hdist).
    rewrite (create_line_geometry_valid Hs He).
    destruct (length_lt (mkLine a b c d) (1 # 2)) eqn:E; [| reflexivity].
    apply length_lt_half in E. lra.
Qed.

(** A line that was built has the four cells as its vertices, start
    first. *)
Lemma create_line_geometry_vertices xs ys xe ye line :
  create_line_geometry xs ys xe ye = Ok line ->
  xs = Num (x1 line) /\ ys = Num (y1 line) /\
  xe = Num (x2 line) /\ ye = Num (y2 line).
Proof.
  intros H.
  assert (Hok : is_ok (create_line_geometry xs ys xe ye) = true)
    by now rewrite H.
  apply create_line_geometry_ok in Hok
    as (Hs & He & a & b & c & d & -> & -> & -> & -> & _).
  rewrite (create_line_geometry_valid Hs He) in H.
  destruct (length_lt (mkLine a b c d) (1 # 2)); [discriminate |].
  injection H as <-. now repeat split.
Qed.


End Geometry.

(** ** The loop over the rows *)

Section Batch.
Context {RT : Runtime}.

Lemma extend_nil self : extend self [] = self.
Proof. destruct self. unfold extend. simpl. now rewrite app_nil_r. Qed.

Lemma extend_extend self es fs :
  extend (extend self es) fs = extend self (es ++ fs).
Proof. unfold extend. simpl. now rewrite app_assoc. Qed.

(** The loop adds, in row order, the accepted rows to the batch and the
    rejected rows to the accumulator. *)
Lemma fold_process_row irs valid self :
  fold_left process_row irs (valid, self) =
    ((valid ++ flat_map accepted_of irs)%list,
     extend self (flat_map rejected_of irs)).
Proof.
  revert valid self.
  induction irs as [| [idx row] irs IH]; intros valid self; simpl.
  - now rewrite app_nil_r, extend_nil.
  - unfold accepted_of, rejected_of. simpl.
    destruct (try_row idx row) as [record | e]; rewrite IH.
    + now rewrite <- app_assoc.
    + change (append_error self (error_of idx row e))
        with (extend self [error_of idx row e]).
      now rewrite extend_extend.
Qed.

Lemma process_records_spec self df :
  process_records self df =
    ({| records := flat_map accepted_of (iterrows df); crs := "EPSG:2056" |},
     extend self (flat_map rejected_of (iterrows df))).
Proof.
  unfold process_records, process_rows. now rewrite fold_process_row.
Qed.

(** Every row has one outcome. *)
Lemma one_outcome ir :
  (List.length (accepted_of ir) + List.length (rejected_of ir) = 1)%nat.
Proof.
  unfold accepted_of, rejected_of.
  now destruct (try_row (fst ir) (snd ir)).
Qed.

Lemma outcomes_length irs :
  (List.length (flat_map accepted_of irs)
   + List.length (flat_map rejected_of irs) = List.length irs)%nat.
Proof.
  induction irs as [| ir irs IH]; simpl; [reflexivity |].
  rewrite !length_app. pose proof (one_outcome ir). lia.
Qed.

Lemma length_iterrows df : List.length (iterrows df) = List.length (rows df).
Proof.
  unfold iterrows. rewrite length_combine, length_seq, length_map. lia.
Qed.

Lemma in_iterrows df i r :
  nth_error (rows df) i = Some r ->
  In (i, combine (columns df) r) (iterrows df).
Proof.
  unfold iterrows.
  change i with (0 + i)%nat at 2.
  generalize 0%nat as start. revert i.
  induction (rows df) as [| r0 rs IH]; intros i start H.
  - destruct i; discriminate.
  - destruct i as [| i]; simpl in *.
    + injection H as ->. left. f_equal. lia.
    + right. replace (start + S i)%nat with (S start + i)%nat by lia.
      now apply IH.
Qed.

(** C1: a batch processed from an empty accumulator is split in two: each
    row gives either one segment of the output batch or one entry of the
    accumulator, never both and never none, so the segments and the errors
    together number the rows. *)
Theorem partition_law self df gdf self' :
  error_records self = [] ->
  process_records self df = (gdf, self') ->
  records gdf = flat_map accepted_of (iterrows df) /\
  error_records self' = flat_map rejected_of (iterrows df) /\
  (forall ir, In ir (iterrows df) ->
     (accepted_of ir <> [] /\ rejected_of ir = []) \/
     (accepted_of ir = [] /\ rejected_of ir <> [])) /\
  (List.length (records gdf) + List.length (error_records self')
   = List.length (rows df))%nat.
Proof.
  intros Hempty Hrun.
  rewrite process_records_spec in Hrun. injection Hrun as <- <-.
  simpl. rewrite Hempty. simpl.
  repeat split.
  - intros ir _. unfold accepted_of, rejected_of.
    destruct (try_row (fst ir) (snd ir)); [left | right]; now split.
  - now rewrite outcomes_length, length_iterrows.
Qed.

(** C5, amended: a row whose processing raises is turned into an entry of
    the accumulator and the loop goes on: the entry carries the row's
    index plus 2, the identifier cell as read (the text "UNBEKANNT" only
    when the row has no column Leitung_ID) and the text of the exception;
    the accumulator grows by the rejected rows in order, and every row of
    the batch is accounted for. *)
Theorem rejected_row_reported self df i r e :
  nth_error (rows df) i = Some r ->
  try_row i (combine (columns df) r) = Raise e ->
  let row := combine (columns df) r in
  let self' := snd (process_records self df) in
  In {| zeile := (i + 2)%nat;
        fehler_leitung_id :=
          match lookup "Leitung_ID" row with
          | Some id => id
          | None => Str "UNBEKANNT"
          end;
        fehler := str_exn e |} (error_records self')
  /\ error_records self' =
       (error_records self ++ flat_map rejected_of (iterrows df))%list
  /\ (List.length (records (fst (process_records self df)))
      + List.length (error_records self')
      = List.length (error_records self) + List.length (rows df))%nat.
Proof.
  intros Hnth Hraise row self'.
  subst self'. rewrite process_records_spec. simpl.
  repeat split.
  - apply in_or_app. right.
    apply in_flat_map. exists (i, row). split.
    + now apply in_iterrows.
    + unfold rejected_of. simpl. fold row in Hraise. rewrite Hraise.
      now left.
  - rewrite length_app.
    pose proof (outcomes_length (iterrows df)) as H.
    rewrite length_iterrows in H. lia.
Qed.

End Batch.

(** ** One row: the gates of acceptance *)

Section Rows.
Context {RT : Runtime}.

(** With the nine cells at hand the [try] block is the chain of the three
    conversions that can raise. *)
Lemma try_row_cells idx row id mat dm xs ys xe ye date remark :
  row_cells row id mat dm xs ys xe ye date remark ->
  try_row idx row =
    (geom <- create_line_geometry xs ys xe ye ;;
     dz <- py_int dm ;;
     ts <- to_datetime date ;;
     Ok {| leitung_id := id;
           material := mat;
           durchmesser := dz;
           verlegedatum := ts;
           bemerkung := if notna remark then remark else Str "";
           geometry := geom;
           import_datum := now idx |}).
Proof.
  intros (Hid & Hmat & Hdm & Hxs & Hys & Hxe & Hye & Hdate & Hrem).
  unfold try_row, getitem.
  rewrite Hxs, Hys, Hxe, Hye. simpl.
  destruct (create_line_geometry xs ys xe ye); simpl; [| reflexivity].
  rewrite Hid, Hmat, Hdm. simpl.
  destruct (py_int dm); simpl; [| reflexivity].
  rewrite Hdate. simpl.
  destruct (to_datetime date); simpl; [| reflexivity].
  now rewrite Hrem.
Qed.


(** [Z.quot] on numerator and denominator is truncation toward zero: the
    result lies between zero and the number, less than one away from
    it. *)
Lemma quot_truncates (q : Q) :
  let z := Z.quot (Qnum q) (Z.pos (Qden q)) in
  ((0 <= q)%Q -> (0 <= z)%Z /\ (inject_Z z <= q)%Q /\ (q < inject_Z z + 1)%Q) /\
  ((q <= 0)%Q -> (z <= 0)%Z /\ (inject_Z z - 1 < q)%Q /\ (q <= inject_Z z)%Q).
Proof.
  destruct q as [n d]. simpl.
  pose proof (Z.quot_rem' n (Z.pos d)) as Hdiv.
  pose proof (Pos2Z.is_pos d) as Hd.
  unfold Qle, Qlt, Qplus, Qminus, Qopp, inject_Z. simpl.
  split; intros Hsign.
  - assert (Hn : (0 <= n)%Z) by lia.
    pose proof (Z.rem_bound_pos n (Z.pos d) Hn Hd) as Hrem.
    pose proof (Z.quot_pos n (Z.pos d) Hn Hd) as Hq.
    repeat split; [exact Hq | nia | nia].
  - assert (Hn : (0 <= - n)%Z) by lia.
    pose proof (Z.rem_bound_pos (- n) (Z.pos d) Hn Hd) as Hrem.
    rewrite Z.rem_opp_l in Hrem by lia.
    assert (Hq : (n ÷ Z.pos d <= 0)%Z).
    { pose proof (Z.quot_pos (- n) (Z.pos d) Hn Hd) as H.
      rewrite Z.quot_opp_l in H by lia. lia. }
    repeat split; [exact Hq | nia | nia].
Qed.

(** C10: in a row that passes the geometry and date gates, a numeric
    diameter is stored truncated toward zero (150.9 gives 150), never
    rounded and never a reason to reject; such a row is rejected exactly
    when [int] cannot convert the diameter cell. *)
Theorem diameter_truncated idx row id mat dm xs ys xe ye date remark :
  row_cells row id mat dm xs ys xe ye date remark ->
  is_ok (create_line_geometry xs ys xe ye) = true ->
  is_ok (to_datetime date) = true ->
  (forall q, dm = Num q ->
     exists seg, try_row idx row = Ok seg /\
       durchmesser seg = Z.quot (Qnum q) (Z.pos (Qden q)) /\
       ((0 <= q)%Q ->
        (0 <= durchmesser seg)%Z /\
        (inject_Z (durchmesser seg) <= q)%Q /\
        (q < inject_Z (durchmesser seg) + 1)%Q) /\
       ((q <= 0)%Q ->
        (durchmesser seg <= 0)%Z /\
        (inject_Z (durchmesser seg) - 1 < q)%Q /\
        (q <= inject_Z (durchmesser seg))%Q))
  /\ (is_ok (try_row idx row) = false <-> is_ok (py_int dm) = false).
Proof.
  intros Hcells Hgeo Hdate.
  rewrite (try_row_cells idx Hcells).
  destruct (create_line_geometry xs ys xe ye) as [geom |]; [| discriminate].
  destruct (to_datetime date) as [ts |]; [| discriminate].
  split.
  - intros q ->. simpl. eexists. split; [reflexivity |]. simpl.
    split; [reflexivity |]. apply quot_truncates.
  - simpl. destruct (py_int dm); simpl; tauto.
Qed.

End Rows.

(** ** The import run *)

Section Run.
Context {RT : Runtime}.

Lemma filter_nil {A} (f : A -> bool) (l : list A) :
  filter f l = [] <-> forall x, In x l -> f x = false.
Proof.
  induction l as [| a l IH]; simpl.
  - split; [intros _ x [] | reflexivity].
  - destruct (f a) eqn:E; split.
    + discriminate.
    + intros H. specialize (H a (or_introl eq_refl)). congruence.
    + intros H x [<- | Hx]; [exact E | now apply IH].
    + intros H. apply IH. intros x Hx. apply H. now right.
Qed.

Lemma existsb_eqb (col : string) (l : list string) :
  existsb (String.eqb col) l = true <-> In col l.
Proof.
  rewrite existsb_exists. split.
  - intros (x & Hx & E). apply String.eqb_eq in E. now subst.
  - intros H. exists col. split; [exact H | apply String.eqb_refl].
Qed.

(** The spreadsheet is handed on when it could be read and names all
    required columns; text columns arrive stripped. *)
Lemma read_excel_some W path df :
  read_excel W path = Some df <->
  exists df0, pd_read_excel W path = Some df0 /\
    (forall col, In col required_columns -> In col (columns df0)) /\
    df = strip_object_columns df0.
Proof.
  unfold read_excel.
  destruct (pd_read_excel W path) as [df0 |].
  - set (missing := filter _ required_columns).
    assert (Hm : missing = [] <->
                 forall col, In col required_columns -> In col (columns df0)).
    { unfold missing. rewrite filter_nil. split; intros H col Hcol.
      - apply existsb_eqb. apply negb_false_iff. now apply H.
      - apply negb_false_iff. apply existsb_eqb. now apply H. }
    destruct missing as [| m ms].
    + split.
      * intros H. injection H as <-. exists df0.
        repeat split. now apply Hm.
      * intros (df1 & H1 & _ & ->). now injection H1 as ->.
    + split; [discriminate |].
      intros (df1 & H1 & Hcols & _). injection H1 as <-.
      apply Hm in Hcols. discriminate.
  - split; [discriminate |]. now intros (df0 & H & _).
Qed.


Lemma execute_all_events c ps :
  forallb (executes c) ps = true ->
  execute_all c ps = (true, map Executed ps).
Proof.
  induction ps as [| p ps IH]; simpl; [reflexivity |].
  destruct (executes c p); simpl; [| discriminate].
  intros H. now rewrite (IH H).
Qed.


(** The steps of a run after the spreadsheet was read. *)
Lemma run_import_read self W path df :
  read_excel W path = Some df ->
  run_import self W path =
    let gdf := fst (process_records self df) in
    let self1 := snd (process_records self df) in
    if empty gdf then (false, self1, [])
    else
      match psycopg2_connect W (db_config self) with
      | None => (false, self1, [])
      | Some c =>
          let self2 := {| db_config := db_config self;
                          conn := Some c;
                          error_records := error_records self1 |} in
          (fst (write_to_database self2 gdf), self2,
           (snd (write_to_database self2 gdf)
              ++ save_error_report self2 (replace ".xlsx" "_fehler.csv" path))%list)
      end.
Proof.
  intros Hread. unfold run_import. rewrite Hread.
  rewrite process_records_spec. simpl.
  destruct (empty _); [reflexivity |].
  unfold connect_db. simpl.
  destruct (psycopg2_connect W (db_config self)) as [c |]; simpl;
    [| reflexivity].
  now destruct (write_to_database _ _).
Qed.


(** C8, amended: the accumulator is empty when the importer is made and
    belongs to the importer: a run never empties it but appends the
    entries of its own rejected rows to what earlier runs on the same
    importer left there. *)
Theorem accumulator_carried_over self W path :
  error_records (init (db_config self)) = [] /\
  error_records (snd (fst (run_import self W path))) =
    (error_records self ++
     match read_excel W path with
     | Some df => flat_map rejected_of (iterrows df)
     | None => []
     end)%list.
Proof.
  split; [reflexivity |].
  destruct (read_excel W path) as [df |] eqn:Hread.
  - rewrite (@run_import_read self W path df Hread). cbv zeta.
    rewrite process_records_spec. simpl.
    destruct (empty _); [reflexivity |].
    now destruct (psycopg2_connect W (db_config self)).
  - unfold run_import. rewrite Hread. simpl. now rewrite app_nil_r.
Qed.

Lemma execute_all_no_report c ps p enc content :
  ~ In (CsvWritten p enc content) (snd (execute_all c ps)).
Proof.
  induction ps as [| q ps IH]; simpl; [tauto |].
  destruct (executes c q); simpl; [| tauto].
  destruct (execute_all c ps) as [ok evs]. simpl in *.
  intros [H | H]; [discriminate | tauto].
Qed.

Lemma write_to_database_no_report self gdf p enc content :
  ~ In (CsvWritten p enc content) (snd (write_to_database self gdf)).
Proof.
  unfold write_to_database.
  destruct (conn self) as [c |]; simpl; [| tauto].
  pose proof (@execute_all_no_report c (map insert_of (records gdf)) p enc content) as H.
  destruct (execute_all c (map insert_of (records gdf))) as [ok evs].
  simpl in H.
  destruct (ok && commits c); simpl; rewrite in_app_iff; simpl;
    intros [H1 | [H1 | []]]; try discriminate; tauto.
Qed.

(** The report is written only by a run that reaches the database write,
    and then exactly when the accumulator is not empty: to the path with
    [.xlsx] replaced, as UTF-8 with signature, one entry per error. *)
Lemma report_written self W path p enc content :
  In (CsvWritten p enc content) (snd (run_import self W path)) <->
  exists df c,
    read_excel W path = Some df /\
    records (fst (process_records self df)) <> [] /\
    psycopg2_connect W (db_config self) = Some c /\
    content <> [] /\
    content = error_records (snd (fst (run_import self W path))) /\
    p = replace ".xlsx" "_fehler.csv" path /\ enc = "utf-8-sig".
Proof.
  destruct (read_excel W path) as [df |] eqn:Hread.
  - rewrite (@run_import_read self W path df Hread). cbv zeta. unfold empty.
    destruct (records (fst (process_records self df))) as [| s0 ss] eqn:Hrec.
    + simpl. split; [tauto |].
      intros (df' & c & E & Hne & _). injection E as <-. congruence.
    + destruct (psycopg2_connect W (db_config self)) as [c |] eqn:Hconn.
      * simpl. rewrite in_app_iff. unfold save_error_report. simpl.
        destruct (error_records (snd (process_records self df)))
          as [| e0 es] eqn:Herr; simpl; split.
        -- intros [H | []]. now apply write_to_database_no_report in H.
        -- intros (_ & _ & _ & _ & _ & Hne & -> & _). congruence.
        -- intros [H | [H | []]];
             [now apply write_to_database_no_report in H |].
           injection H as <- <- <-.
           exists df, c. repeat split; try congruence; discriminate.
        -- intros (_ & _ & _ & _ & _ & _ & -> & -> & ->). right. now left.
      * simpl. split; [tauto |].
        intros (_ & c & _ & _ & E & _). discriminate.
  - unfold run_import. rewrite Hread. simpl. split; [tauto |].
    intros (df & _ & E & _). discriminate.
Qed.

End Run.

(** ** Well-known text *)

Section Wkt.
Context {RT : Runtime}.
Import WktReader.




Section Reading.
Variable read_number : string -> option Q.





End Reading.
End Wkt.

(** ** The scenarios of the test files, evaluated *)

Section Scenarios.
Import Reference WktReader.

(** Scenario A: accepted, with the vertices in the order of the row. *)
Example scenario_A :
  try_row 0 (series_of row_valid) = Ok segment_valid.
Proof. vm_compute. reflexivity. Qed.

(** Scenarios B to E: each row is rejected for its own reason. *)
Example scenarios_B_to_E :
  map fehler
    (error_records
       (snd (process_records (init [])
               (frame [row_too_short; row_x_outside; row_missing_end;
                       row_bad_date]))))
  = ["Leitung zu kurz (0.14m), wahrscheinlich Fehleingabe";
     "Startpunkt ungültig: X-Koordinate 1000000 außerhalb Schweizer Bereich";
     "Endpunkt ungültig: X-Koordinate nan außerhalb Schweizer Bereich";
     "Unknown datetime string format, unable to parse: 32.13.2020"].
Proof. vm_compute. reflexivity. Qed.

(** Scenario F: ten valid rows from a new importer: ten statements, a
    commit, no report. *)
Example scenario_F :
  run_import (init []) (world_of "zehn.xlsx" (frame (repeat row_valid 10)))
             "zehn.xlsx"
  = (true,
     {| db_config := []; conn := Some good_connection; error_records := [] |},
     (map (fun i => Executed (insert_of
             {| leitung_id := Str "L_00001";
                material := Str "PE";
                durchmesser := 150;
                verlegedatum := TS 1579046400000000000;
                bemerkung := Str "Hauptleitung Quartier";
                geometry := mkLine 2683000 1248000 2683100 1248100;
                import_datum := TS (1700000000000000000 + Z.of_nat i) |}))
          (seq 0 10) ++ [Commit])%list).
Proof. vm_compute. reflexivity. Qed.

(** C1, witness: one accepted and two rejected rows. *)
Lemma partition_law_witness :
  error_records (init []) = [] /\
  process_records (init []) (frame [row_valid; row_x_outside; row_too_short])
    = (fst (process_records (init [])
              (frame [row_valid; row_x_outside; row_too_short])),
       snd (process_records (init [])
              (frame [row_valid; row_x_outside; row_too_short]))) /\
  (List.length
     (records (fst (process_records (init [])
                      (frame [row_valid; row_x_outside; row_too_short]))))
   + List.length
       (error_records (snd (process_records (init [])
                              (frame [row_valid; row_x_outside; row_too_short]))))
   = 3)%nat.
Proof.
  split; [reflexivity |].
  split; [vm_compute; reflexivity |].
  apply (@partition_law runtime (init [])
           (frame [row_valid; row_x_outside; row_too_short])
           _ _ eq_refl).
  vm_compute. reflexivity.
Defined.


(** C5, witness: the second row of a frame. *)
Lemma rejected_row_reported_witness :
  nth_error (rows (frame [row_valid; row_x_outside])) 1 = Some row_x_outside /\
  try_row 1 (combine (columns (frame [row_valid; row_x_outside])) row_x_outside)
    = Raise (ValueError
        "Startpunkt ungültig: X-Koordinate 1000000 außerhalb Schweizer Bereich") /\
  In (error_x_outside 1)
     (error_records
        (snd (process_records (init []) (frame [row_valid; row_x_outside])))).
Proof.
  split; [reflexivity |].
  split; [vm_compute; reflexivity |].
  refine (proj1 (@rejected_row_reported runtime (init [])
                   (frame [row_valid; row_x_outside]) 1 row_x_outside
                   (ValueError
                      "Startpunkt ungültig: X-Koordinate 1000000 außerhalb Schweizer Bereich")
                   eq_refl _)).
  vm_compute. reflexivity.
Defined.


(** C10, witness: a diameter of 150.9 is stored as 150. *)
Lemma diameter_truncated_witness :
  row_cells (series_of row_fractional)
    (Str "L_00003") (Str "PVC") (Num (1509 # 10))
    (Num 2683000) (Num 1248000) (Num 2683100) (Num 1248100)
    (Str "2020-01-15") NaN /\
  is_ok (create_line_geometry (Num 2683000) (Num 1248000)
                              (Num 2683100) (Num 1248100)) = true /\
  is_ok (to_datetime (Str "2020-01-15")) = true /\
  exists seg, try_row 0 (series_of row_fractional) = Ok seg /\
              durchmesser seg = 150%Z.
Proof.
  assert (Hcells : row_cells (series_of row_fractional)
            (Str "L_00003") (Str "PVC") (Num (1509 # 10))
            (Num 2683000) (Num 1248000) (Num 2683100) (Num 1248100)
            (Str "2020-01-15") NaN)
    by (repeat split; reflexivity).
  split; [exact Hcells |].
  split; [reflexivity |].
  split; [reflexivity |].
  destruct (proj1 (@diameter_truncated runtime 0 _ _ _ _ _ _ _ _ _ _
                     Hcells eq_refl eq_refl) (1509 # 10) eq_refl)
    as (seg & Hrow & Hdm & _).
  exists seg. split; [exact Hrow | exact Hdm].
Defined.



(** C5, counterexample: an empty identifier cell is reported as it is,
    and a row without the column is reported as "UNBEKANNT"; no entry
    carries "UNKNOWN". *)
Lemma sentinel_is_not_UNKNOWN :
  map fehler_leitung_id
    (error_records (snd (process_records (init []) (frame [row_no_id]))))
    = [NaN] /\
  map fehler_leitung_id
    (error_records (snd (process_records (init []) frame_without_id)))
    = [Str "UNBEKANNT"] /\
  Str "UNBEKANNT" <> Str "UNKNOWN".
Proof. repeat split; try (vm_compute; reflexivity). discriminate. Qed.



(** C8, counterexample: the second run on the same importer starts with
    the entry of the first run, rejects nothing itself, and writes a
    report with the entry of the first run. *)
Lemma second_run_inherits_errors :
  error_records (snd (fst first_run)) = [error_x_outside 1] /\
  flat_map rejected_of (iterrows (frame [row_valid])) = [] /\
  error_records (snd (fst second_run)) = [error_x_outside 1] /\
  In (CsvWritten "b_fehler.csv" "utf-8-sig" [error_x_outside 1])
     (snd second_run).
Proof.
  repeat split; try (vm_compute; reflexivity).
  vm_compute. right. right. left. reflexivity.
Qed.

End Scenarios.

(** * Further properties of the importer *)

(** ** Reading the spreadsheet *)

Section Reading_frames.

(** X1: [read_excel] gives nothing exactly when the file cannot be read or
    a required column is missing; further columns and the order of the
    columns do not matter. *)
Theorem read_excel_fails W path :
  read_excel W path = None <->
  pd_read_excel W path = None \/
  exists df0 col, pd_read_excel W path = Some df0 /\
    In col required_columns /\ ~ In col (columns df0).
Proof.
  unfold read_excel.
  destruct (pd_read_excel W path) as [df0 |]; [| split; auto].
  set (missing := filter _ required_columns).
  destruct missing as [| m ms] eqn:Hm.
  - split; [discriminate |].
    intros [H | (df1 & col & E & Hin & Hnot)]; [discriminate |].
    injection E as <-.
    unfold missing in Hm. rewrite filter_nil in Hm.
    specialize (Hm col Hin). apply negb_false_iff in Hm.
    apply existsb_eqb in Hm. contradiction.
  - split; [| reflexivity]. intros _. right.
    assert (Hin : In m missing) by (rewrite Hm; now left).
    unfold missing in Hin. apply filter_In in Hin as [Hreq Hneg].
    exists df0, m. repeat split; [exact Hreq |].
    intros Hcol. apply existsb_eqb in Hcol.
    rewrite Hcol in Hneg. discriminate.
Qed.

Lemma nth_error_indexed {A} (l : list A) (start j : nat) :
  nth_error (combine (seq start (List.length l)) l) j =
  option_map (fun x => ((start + j)%nat, x)) (nth_error l j).
Proof.
  revert start j.
  induction l as [| a l IH]; intros start j; simpl.
  - now destruct j.
  - destruct j as [| j]; simpl.
    + now rewrite Nat.add_0_r.
    + rewrite IH. now replace (S start + j)%nat with (start + S j)%nat by lia.
Qed.

(** The cell at position [j] of a row after the text columns were
    stripped. *)
Lemma strip_row_cell df r j v :
  nth_error r j = Some v ->
  nth_error (strip_row df r) j =
    Some (if object_column df j then str_strip v else v).
Proof.
  intros H. unfold strip_row.
  rewrite nth_error_map, nth_error_indexed, H. reflexivity.
Qed.


Lemma text_makes_object_column df i r j s :
  nth_error (rows df) i = Some r ->
  nth_error r j = Some (Str s) ->
  object_column df j = true.
Proof.
  intros Hr Hj. unfold object_column.
  apply existsb_exists. exists r. split.
  - eapply nth_error_In. exact Hr.
  - erewrite nth_error_nth by exact Hj. reflexivity.
Qed.


End Reading_frames.

Section Lost_diameters.
Context {RT : Runtime}.

(** [row[key]] is the cell under the first column of that name. *)
Lemma lookup_combine key cols r j v :
  index_of key cols = Some j ->
  nth_error r j = Some v ->
  lookup key (combine cols r) = Some v.
Proof.
  revert r j.
  induction cols as [| c cols IH]; intros r j Hidx Hv; simpl in *;
    [discriminate |].
  destruct r as [| x r]; [destruct j; discriminate |].
  simpl. destruct (String.eqb key c).
  - injection Hidx as <-. exact Hv.
  - destruct (index_of key cols) as [k |]; [| discriminate].
    injection Hidx as <-. simpl in Hv. now apply (IH r k).
Qed.

(** A row without a diameter is never accepted. *)
Lemma nan_diameter_rejected idx row :
  lookup "Durchmesser_mm" row = Some NaN ->
  is_ok (try_row idx row) = false.
Proof.
  intros H. unfold try_row, getitem. rewrite H.
  destruct (lookup "X_Start" row); [| reflexivity].
  destruct (lookup "Y_Start" row); [| reflexivity].
  destruct (lookup "X_End" row); [| reflexivity].
  destruct (lookup "Y_End" row); [| reflexivity].
  simpl. destruct (create_line_geometry _ _ _ _); [| reflexivity].
  simpl. destruct (lookup "Leitung_ID" row); [| reflexivity].
  destruct (lookup "Material" row); reflexivity.
Qed.

(** X3: when the column Durchmesser_mm of the spreadsheet holds text in
    some row, every row with a numeric diameter is rejected by the run's
    row loop, because [read_excel] has turned its diameter into NaN. *)
Theorem text_in_diameter_column_rejects_numbers
  W path df0 df i i' j r0 r1 q s :
  pd_read_excel W path = Some df0 ->
  read_excel W path = Some df ->
  index_of "Durchmesser_mm" (columns df0) = Some j ->
  nth_error (rows df0) i = Some r0 ->
  nth_error r0 j = Some (Num q) ->
  nth_error (rows df0) i' = Some r1 ->
  nth_error r1 j = Some (Str s) ->
  exists row, nth_error (iterrows df) i = Some (i, row) /\
    lookup "Durchmesser_mm" row = Some NaN /\
    is_ok (try_row i row) = false.
Proof.
  intros Hpd Hread Hidx Hi Hj Hi' Hj'.
  apply read_excel_some in Hread as (df1 & Hpd' & _ & ->).
  rewrite Hpd in Hpd'. injection Hpd' as <-.
  exists (combine (columns df0) (strip_row df0 r0)).
  assert (Hnan : lookup "Durchmesser_mm"
                   (combine (columns df0) (strip_row df0 r0)) = Some NaN).
  { apply (lookup_combine _ _ _ Hidx).
    rewrite (strip_row_cell df0 _ _ Hj).
    now rewrite (text_makes_object_column df0 _ _ Hi' Hj'). }
  repeat split.
  - unfold iterrows. simpl.
    rewrite <- (length_map (combine (columns df0))).
    rewrite nth_error_indexed, nth_error_map, nth_error_map, Hi.
    reflexivity.
  - exact Hnan.
  - now apply nan_diameter_rejected.
Qed.

End Lost_diameters.

(** ** Stripping text *)

Section Stripping.










End Stripping.

(** ** Order of the checks in geometry construction *)

Section Check_order.
Context {RT : Runtime}.

(** X5: both endpoints are checked before either verdict is looked at.
    When the start point fails and the check of the end point returns, the
    start point is the one reported, whatever the end point is like; when
    the check of the end point raises (text), that exception is what
    comes out, even if the start point had failed. *)
Theorem start_point_reported_first xs ys xe ye :
  (forall ms verdict_end,
      validate_coordinates xs ys = Ok (false, ms) ->
      validate_coordinates xe ye = Ok verdict_end ->
      create_line_geometry xs ys xe ye =
        Raise (ValueError ("Startpunkt ungültig: " ++ ms)))
  /\ (forall me,
      validate_coordinates xs ys = Ok (true, "OK") ->
      validate_coordinates xe ye = Ok (false, me) ->
      create_line_geometry xs ys xe ye =
        Raise (ValueError ("Endpunkt ungültig: " ++ me)))
  /\ (forall verdict_start e,
      validate_coordinates xs ys = Ok verdict_start ->
      validate_coordinates xe ye = Raise e ->
      create_line_geometry xs ys xe ye = Raise e)
  /\ (forall e,
      validate_coordinates xs ys = Raise e ->
      create_line_geometry xs ys xe ye = Raise e).
Proof.
  unfold create_line_geometry. repeat split.
  - intros ms [ve me] -> ->. reflexivity.
  - intros me -> ->. reflexivity.
  - intros [vs ms] e -> ->. reflexivity.
  - intros e ->. reflexivity.
Qed.

Lemma distance_sym a b c d : distance a b c d = distance c d a b.
Proof. unfold distance. f_equal. ring. Qed.

(** X6: the direction of a line is the order of the arguments: when a
    line is built from start to end, the call with the endpoints swapped
    builds the reversed line. *)
Theorem create_line_geometry_reversed xs ys xe ye line :
  create_line_geometry xs ys xe ye = Ok line ->
  create_line_geometry xe ye xs ys =
    Ok (mkLine (x2 line) (y2 line) (x1 line) (y1 line)).
Proof.
  intros H.
  assert (Hok : is_ok (create_line_geometry xs ys xe ye) = true)
    by now rewrite H.
  apply create_line_geometry_vertices in H as (-> & -> & -> & ->).
  apply create_line_geometry_ok in Hok
    as (Hs & He & a & b & c & d & Ea & Eb & Ec & Ed & Hdist).
  injection Ea as <-. injection Eb as <-.
  injection Ec as <-. injection Ed as <-.
  rewrite (create_line_geometry_valid He Hs).
  destruct (length_lt _ _) eqn:E; [| reflexivity].
  apply length_lt_half in E. rewrite distance_sym in E. lra.
Qed.

End Check_order.

(** ** What the output batch and the accumulator hold *)

Section Batch_contents.
Context {RT : Runtime}.



(** X8: an accepted segment carries the identifier and material cells of
    its row as read, the integer of the diameter cell, the parsed date,
    the clock reading of its position, and a remark that is never NaN: an
    empty remark is stored as the empty text. *)
Theorem segment_fields idx row seg :
  try_row idx row = Ok seg ->
  lookup "Leitung_ID" row = Some (leitung_id seg) /\
  lookup "Material" row = Some (material seg) /\
  (exists dm, lookup "Durchmesser_mm" row = Some dm /\
              py_int dm = Ok (durchmesser seg)) /\
  (exists date, lookup "Verlegedatum" row = Some date /\
                to_datetime date = Ok (verlegedatum seg)) /\
  (exists remark, lookup "Bemerkung" row = Some remark /\
     (remark = NaN -> bemerkung seg = Str "") /\
     (remark <> NaN -> bemerkung seg = remark)) /\
  bemerkung seg <> NaN /\
  import_datum seg = now idx.
Proof.
  unfold try_row, getitem. intros Hrow.
  destruct (lookup "X_Start" row) as [xs |]; [| discriminate].
  destruct (lookup "Y_Start" row) as [ys |]; [| discriminate].
  destruct (lookup "X_End" row) as [xe |]; [| discriminate].
  destruct (lookup "Y_End" row) as [ye |]; [| discriminate].
  simpl in Hrow.
  destruct (create_line_geometry xs ys xe ye) as [geom |]; [| discriminate].
  simpl in Hrow.
  destruct (lookup "Leitung_ID" row) as [id |]; [| discriminate].
  destruct (lookup "Material" row) as [mat |]; [| discriminate].
  destruct (lookup "Durchmesser_mm" row) as [dm |]; [| discriminate].
  simpl in Hrow.
  destruct (py_int dm) as [dz |] eqn:Hint; [| discriminate].
  destruct (lookup "Verlegedatum" row) as [date |]; [| discriminate].
  simpl in Hrow.
  destruct (to_datetime date) as [ts |] eqn:Hdate; [| discriminate].
  destruct (lookup "Bemerkung" row) as [remark |]; [| discriminate].
  simpl in Hrow. injection Hrow as <-. simpl.
  repeat split.
  - exists dm. now split.
  - exists date. now split.
  - exists remark. repeat split; [now intros -> |].
    intros H. now destruct remark.
  - now destruct remark.
Qed.

Lemma rejected_rows_numbered rs (f : list cell -> Series) start :
  StronglySorted lt
    (map zeile (flat_map rejected_of
                  (combine (seq start (List.length rs)) (map f rs)))) /\
  Forall (fun z => start + 2 <= z < start + List.length rs + 2)%nat
    (map zeile (flat_map rejected_of
                  (combine (seq start (List.length rs)) (map f rs)))).
Proof.
  revert start.
  induction rs as [| r rs IH]; intros start; simpl.
  - split; constructor.
  - destruct (IH (S start)) as [Hsorted Hrange].
    assert (Hrange' :
              Forall (fun z => start + 2 < z < start + S (List.length rs) + 2)%nat
                (map zeile (flat_map rejected_of
                   (combine (seq (S start) (List.length rs)) (map f rs))))).
    { eapply Forall_impl; [| exact Hrange]. simpl. intros z Hz. lia. }
    unfold rejected_of at 1 3. simpl.
    destruct (try_row start (f r)); simpl.
    + split; [exact Hsorted |].
      eapply Forall_impl; [| exact Hrange']. simpl. intros z Hz. lia.
    + split.
      * constructor; [exact Hsorted |].
        eapply Forall_impl; [| exact Hrange']. simpl. intros z Hz. lia.
      * constructor; [lia |].
        eapply Forall_impl; [| exact Hrange']. simpl. intros z Hz. lia.
Qed.

(** X9: the entries one batch adds to the accumulator come in the order
    of the rows: their row numbers increase strictly, and each lies
    between 2 and the number of rows plus 1. *)
Theorem error_rows_increase self df :
  exists added,
    error_records (snd (process_records self df))
      = (error_records self ++ added)%list /\
    StronglySorted lt (map zeile added) /\
    Forall (fun z => 2 <= z <= List.length (rows df) + 1)%nat
      (map zeile added).
Proof.
  exists (flat_map rejected_of (iterrows df)).
  rewrite process_records_spec. simpl. split; [reflexivity |].
  unfold iterrows.
  destruct (rejected_rows_numbered (rows df) (combine (columns df)) 0)
    as [Hsorted Hrange].
  split; [exact Hsorted |].
  eapply Forall_impl; [| exact Hrange]. simpl. intros z Hz. lia.
Qed.

End Batch_contents.

(** ** Frames without a required column *)

Section Missing_columns.
Context {RT : Runtime}.




End Missing_columns.

(** ** The transaction *)

Section Transaction.
Context {RT : Runtime}.

(** The statements before the first one that raises are executed. *)
Lemma execute_all_prefix c ps :
  exists k,
    snd (execute_all c ps) = map Executed (firstn k ps) /\
    (fst (execute_all c ps) = true -> firstn k ps = ps) /\
    (fst (execute_all c ps) = false ->
     exists p, nth_error ps k = Some p /\ executes c p = false).
Proof.
  induction ps as [| p ps (k & Hev & Hok & Hfail)]; simpl.
  - exists 0%nat. repeat split. discriminate.
  - destruct (executes c p) eqn:E.
    + destruct (execute_all c ps) as [ok evs]. simpl in *.
      exists (S k). simpl. rewrite Hev. repeat split.
      * intros H. now rewrite (Hok H).
      * exact Hfail.
    + exists 0%nat. simpl. repeat split; [discriminate |].
      intros _. now exists p.
Qed.

(** X11: the batch write is one transaction.  Without a connection it
    does nothing and reports failure.  With one, it reports success
    exactly when it ends in a commit after one statement per segment, in
    the order of the batch; otherwise it has executed the statements
    before the first one that raised (all of them when only the commit
    failed) and ends in a rollback, never in a commit. *)
Theorem write_to_database_transaction self gdf :
  (conn self = None -> write_to_database self gdf = (false, [])) /\
  (forall c, conn self = Some c ->
     (fst (write_to_database self gdf) = true ->
      snd (write_to_database self gdf)
        = (map Executed (map insert_of (records gdf)) ++ [Commit])%list) /\
     (fst (write_to_database self gdf) = false ->
      exists k,
        snd (write_to_database self gdf)
          = (map Executed (firstn k (map insert_of (records gdf)))
               ++ [Rollback])%list /\
        ((exists p, nth_error (map insert_of (records gdf)) k = Some p /\
                    executes c p = false) \/
         (firstn k (map insert_of (records gdf)) = map insert_of (records gdf)
          /\ commits c = false)))).
Proof.
  unfold write_to_database. split.
  - intros ->. reflexivity.
  - intros c ->.
    destruct (execute_all_prefix c (map insert_of (records gdf)))
      as (k & Hev & Hok & Hfail).
    destruct (execute_all c (map insert_of (records gdf))) as [ok evs].
    simpl in *. subst evs.
    destruct ok; simpl.
    + specialize (Hok eq_refl).
      destruct (commits c) eqn:Hc; simpl; split; intros H;
        try discriminate.
      * now rewrite Hok.
      * exists k. split; [reflexivity |]. right. now split.
    + split; [discriminate |]. intros _.
      exists k. split; [reflexivity |]. left. now apply Hfail.
Qed.



End Transaction.

(** ** The path of the error report *)

Section Report_path.
Context {RT : Runtime}.

Lemma replace_from_absent old new s :
  occurs_in old s = false -> replace_from 0 old new s = s.
Proof.
  induction s as [| c s IH]; [reflexivity |].
  intros H. change (occurs_in old (String c s))
    with (prefix old (String c s) || occurs_in old s) in H.
  apply orb_false_iff in H as [Hp Hs].
  change (replace_from 0 old new (String c s))
    with (if prefix old (String c s)
          then new ++ replace_from (String.length old - 1) old new s
          else String c (replace_from 0 old new s)).
  now rewrite Hp, (IH Hs).
Qed.

(** X13: when the path of the spreadsheet holds no [.xlsx] (another
    extension, or upper case), a report that the run writes goes to the
    path of the spreadsheet itself. *)
Theorem report_overwrites_input self W path p enc content :
  occurs_in ".xlsx" path = false ->
  In (CsvWritten p enc content) (snd (run_import self W path)) ->
  p = path.
Proof.
  intros Habsent Hin.
  apply report_written in Hin as (_ & _ & _ & _ & _ & _ & _ & -> & _).
  unfold replace. now apply replace_from_absent.
Qed.

(** No occurrence of [.xlsx] starts in a text without one and runs into
    a following [.xlsx]. *)
Lemma no_straddle t rest :
  prefix ".xlsx" t = false ->
  t <> "" ->
  prefix ".xlsx" (t ++ ".xlsx" ++ rest) = false.
Proof.
  intros Hp Hne.
  destruct t as [| c1 [| c2 [| c3 [| c4 [| c5 t]]]]];
    [congruence | | | | |]; cbn [prefix append] in *;
    repeat (match goal with
            | H : context [ascii_dec ?a ?b] |- _ =>
                destruct (ascii_dec a b); try discriminate; subst
            | |- context [ascii_dec ?a ?b] =>
                destruct (ascii_dec a b); try discriminate; subst
            end; cbn [prefix append] in *);
    try reflexivity; try discriminate; try congruence.
  destruct t; discriminate.
Qed.

(** X14: in a path, the first [.xlsx] and every later one is replaced by
    [_fehler.csv]: a path that ends in its only [.xlsx] gets the report
    beside the spreadsheet, and a directory name with [.xlsx] in it is
    rewritten as well. *)
Theorem replace_xlsx new a b :
  occurs_in ".xlsx" a = false ->
  replace ".xlsx" new (a ++ ".xlsx" ++ b) = a ++ new ++ replace ".xlsx" new b.
Proof.
  unfold replace.
  induction a as [| c a IH]; intros H.
  - destruct b; reflexivity.
  - change (occurs_in ".xlsx" (String c a))
      with (prefix ".xlsx" (String c a) || occurs_in ".xlsx" a) in H.
    apply orb_false_iff in H as [Hp Ha].
    change (String c a ++ ".xlsx" ++ b) with (String c (a ++ ".xlsx" ++ b)).
    change (replace_from 0 ".xlsx" new (String c (a ++ ".xlsx" ++ b)))
      with (if prefix ".xlsx" (String c (a ++ ".xlsx" ++ b))
            then new ++ replace_from (String.length ".xlsx" - 1) ".xlsx" new
                          (a ++ ".xlsx" ++ b)
            else String c (replace_from 0 ".xlsx" new (a ++ ".xlsx" ++ b))).
    change (String c (a ++ ".xlsx" ++ b)) with (String c a ++ ".xlsx" ++ b).
    rewrite (@no_straddle (String c a) b Hp) by discriminate.
    now rewrite (IH Ha).
Qed.

End Report_path.

(** * Properties of the test-data generator *)

Section Generated_frames.
Import Generator.

Variable draw : nat -> record.

Lemma nth_error_draws n i :
  (i < n)%nat -> nth_error (map draw (seq 0 n)) i = Some (draw i).
Proof.
  intros H. rewrite nth_error_map, nth_error_seq.
  destruct (Nat.ltb_spec i n); [reflexivity | lia].
Qed.

Lemma item_draws n i tail :
  (i < n)%nat -> item (map draw (seq 0 n) ++ tail)%list i = Built (draw i).
Proof.
  intros H. unfold item.
  rewrite nth_error_app1 by (rewrite length_map, length_seq; exact H).
  now rewrite nth_error_draws.
Qed.

(** X15: with [include_errors] and 21 records or more, the frame holds
    the drawn records followed by the four faulty copies of the records
    at positions 5, 10, 15 and 20, so four rows more than asked for;
    without [include_errors], or with fewer than 10 records, it holds the
    drawn records only. *)
Theorem generate_test_data_rows n include_errors x y :
  X_Start (draw 10) = Num x ->
  Y_Start (draw 10) = Num y ->
  ((21 <= n)%nat ->
   generate_test_data draw n true =
     Built {| columns := required_columns;
              rows := map values
                        (map draw (seq 0 n) ++
                         [error_record_1 (draw 5);
                          error_record_2 (draw 10)
                            (Num (x + (1 # 10))) (Num (y + (1 # 10)));
                          error_record_3 (draw 15);
                          error_record_4 (draw 20)])%list |}) /\
  (include_errors = false \/ (n < 10)%nat ->
   generate_test_data draw n include_errors =
     Built (to_frame (map draw (seq 0 n)))).
Proof.
  intros Hx Hy. split.
  - intros Hn. unfold generate_test_data.
    assert (Hge : (10 <=? n)%nat = true) by (apply Nat.leb_le; lia).
    rewrite Hge. simpl andb. cbv iota.
    rewrite <- (app_nil_r (map draw (seq 0 n))) at 1.
    rewrite item_draws by lia. unfold and_then at 1.
    rewrite item_draws by lia. unfold and_then at 1.
    rewrite Hx, Hy. unfold plus_tenth, and_then at 1 2.
    rewrite <- app_assoc. rewrite item_draws by lia. unfold and_then at 1.
    rewrite <- app_assoc. rewrite item_draws by lia. unfold and_then at 1.
    rewrite <- app_assoc. simpl app.
    unfold to_frame. f_equal. f_equal.
    destruct (map draw (seq 0 n)); reflexivity.
  - intros H. unfold generate_test_data.
    destruct H as [-> | H]; [reflexivity |].
    assert (Hlt : (10 <=? n)%nat = false) by (apply Nat.leb_gt; lia).
    rewrite Hlt, andb_false_r. reflexivity.
Qed.

(** X16: with [include_errors] and 10 to 17 records the generator stops
    with an [IndexError]: the copies are taken from positions 15 and 20
    of a list that is not long enough, even counting the copies appended
    before. *)
Theorem generate_test_data_index_error n :
  (forall i, is_text (X_Start (draw i)) = false /\
             is_text (Y_Start (draw i)) = false) ->
  (10 <= n <= 17)%nat ->
  generate_test_data draw n true = Failed IndexError.
Proof.
  intros Hnum Hn.
  assert (Hcases : (n = 10 \/ n = 11 \/ n = 12 \/ n = 13 \/
                    n = 14 \/ n = 15 \/ n = 16 \/ n = 17)%nat) by lia.
  pose proof (Hnum 5%nat) as [_ Hy5].
  pose proof (Hnum 10%nat) as [Hx10 Hy10].
  unfold generate_test_data.
  repeat (destruct Hcases as [-> | Hcases]); try subst n; simpl.
  - destruct (Y_Start (draw 5)); try discriminate; reflexivity.
  - destruct (X_Start (draw 10)), (Y_Start (draw 10));
      try discriminate; reflexivity.
  - destruct (X_Start (draw 10)), (Y_Start (draw 10));
      try discriminate; reflexivity.
  - destruct (X_Start (draw 10)), (Y_Start (draw 10));
      try discriminate; reflexivity.
  - destruct (X_Start (draw 10)), (Y_Start (draw 10));
      try discriminate; reflexivity.
  - destruct (X_Start (draw 10)), (Y_Start (draw 10));
      try discriminate; reflexivity.
  - destruct (X_Start (draw 10)), (Y_Start (draw 10));
      try discriminate; reflexivity.
  - destruct (X_Start (draw 10)), (Y_Start (draw 10));
      try discriminate; reflexivity.
Qed.

End Generated_frames.

Section Generated_errors.
Context {RT : Runtime}.
Import Generator.

Lemma record_cells (r : record) :
  row_cells (combine required_columns (values r))
    (Leitung_ID r) (Material r) (Durchmesser_mm r)
    (X_Start r) (Y_Start r) (X_End r) (Y_End r)
    (Verlegedatum r) (Bemerkung r).
Proof. repeat split. Qed.

Lemma tenth_apart a b :
  length_lt (mkLine a b (a + (1 # 10)) (b + (1 # 10))) (1 # 2) = true.
Proof.
  unfold length_lt. apply negb_true_iff, not_true_iff_false.
  rewrite Qle_bool_iff. unfold length_sq. simpl.
  assert (E : (a + (1 # 10) - a) * (a + (1 # 10) - a)
              + (b + (1 # 10) - b) * (b + (1 # 10) - b) == 1 # 50)
    by ring.
  rewrite E. unfold Qle. simpl. lia.
Qed.

(** X17: the four faulty copies of a record that the importer accepts
    are each rejected for the reason they were made for: the start point
    outside the envelope, the line too short, the end coordinate missing,
    and the date that does not parse. *)
Theorem faulty_copies_rejected idx k r a b e :
  is_ok (try_row idx (combine required_columns (values r))) = true ->
  X_Start r = Num a ->
  Y_Start r = Num b ->
  (a + (1 # 10) <= 2840000)%Q ->
  (b + (1 # 10) <= 1300000)%Q ->
  to_datetime (Str "32.13.2020") = Raise e ->
  try_row k (combine required_columns (values (error_record_1 r)))
    = Raise (ValueError
        ("Startpunkt ungültig: X-Koordinate " ++ format_number 1000000
           ++ " außerhalb Schweizer Bereich")) /\
  try_row k (combine required_columns
               (values (error_record_2 r (Num (a + (1 # 10)))
                                         (Num (b + (1 # 10))))))
    = Raise (ValueError
        ("Leitung zu kurz ("
           ++ format_length (mkLine a b (a + (1 # 10)) (b + (1 # 10)))
           ++ "m), wahrscheinlich Fehleingabe")) /\
  try_row k (combine required_columns (values (error_record_3 r)))
    = Raise (ValueError
        "Endpunkt ungültig: X-Koordinate nan außerhalb Schweizer Bereich") /\
  try_row k (combine required_columns (values (error_record_4 r)))
    = Raise e.
Proof.
  intros Hok Hxs Hys Hxa Hyb Hdate.
  rewrite (try_row_cells idx (record_cells r)) in Hok.
  destruct (create_line_geometry (X_Start r) (Y_Start r) (X_End r) (Y_End r))
    as [geom |] eqn:Hgeo; [| discriminate].
  simpl in Hok.
  destruct (py_int (Durchmesser_mm r)) as [dz |] eqn:Hint; [| discriminate].
  assert (Hgeo' : is_ok (create_line_geometry (X_Start r) (Y_Start r)
                           (X_End r) (Y_End r)) = true) by now rewrite Hgeo.
  apply create_line_geometry_ok in Hgeo'
    as (Hs & He & a' & b' & c & d & Ea & Eb & Ec & Ed & _).
  rewrite Hxs in Ea. rewrite Hys in Eb.
  injection Ea as <-. injection Eb as <-.
  rewrite Hxs, Hys in Hs.
  assert (Hs' : validate_coordinates (Num a) (Num b) = Ok (true, "OK"))
    by now apply validate_ok_numeric.
  assert (He' : validate_coordinates (X_End r) (Y_End r) = Ok (true, "OK"))
    by now apply validate_ok_numeric.
  repeat split.
  - rewrite (try_row_cells k (record_cells (error_record_1 r))). simpl.
    unfold create_line_geometry. rewrite He'. reflexivity.
  - rewrite (try_row_cells k (record_cells (error_record_2 r _ _))). simpl.
    rewrite Hxs, Hys.
    assert (Hend : in_envelope (Num (a + (1 # 10))) (Num (b + (1 # 10)))).
    { destruct Hs as (sx & sy & Esx & Esy & [Hx1 Hx2] & [Hy1 Hy2]).
      injection Esx as <-. injection Esy as <-.
      exists (a + (1 # 10)), (b + (1 # 10)).
      repeat split; try assumption.
      - eapply Qle_trans; [exact Hx1 |].
        rewrite <- (Qplus_0_r a) at 1. apply Qplus_le_r. discriminate.
      - eapply Qle_trans; [exact Hy1 |].
        rewrite <- (Qplus_0_r b) at 1. apply Qplus_le_r. discriminate. }
    rewrite (create_line_geometry_valid Hs Hend), tenth_apart. reflexivity.
  - rewrite (try_row_cells k (record_cells (error_record_3 r))). simpl.
    rewrite Hxs, Hys. unfold create_line_geometry. rewrite Hs'. reflexivity.
  - rewrite (try_row_cells k (record_cells (error_record_4 r))). simpl.
    rewrite Hgeo. simpl. rewrite Hint. simpl. now rewrite Hdate.
Qed.

End Generated_errors.

(** * The report and the further samples, evaluated *)

Section Report_stage.
Context {RT : Runtime}.


(** X19: a run leaves the configuration of the importer alone and opens
    a connection only when there is something to write: after a run that
    could not read its input or accepted no row, the importer holds the
    connection it held before; otherwise it holds the new connection, or
    the old one when connecting failed. *)
Theorem run_import_connection self W path :
  db_config (snd (fst (run_import self W path))) = db_config self /\
  (read_excel W path = None -> conn (snd (fst (run_import self W path))) = conn self) /\
  (forall df, read_excel W path = Some df ->
     conn (snd (fst (run_import self W path))) =
       if empty (fst (process_records self df)) then conn self
       else match psycopg2_connect W (db_config self) with
            | Some c => Some c
            | None => conn self
            end).
Proof.
  destruct (read_excel W path) as [df |] eqn:Hread.
  - rewrite (@run_import_read RT self W path df Hread). cbv zeta.
    assert (Hkept : db_config (snd (process_records self df)) = db_config self
                    /\ conn (snd (process_records self df)) = conn self)
      by (rewrite process_records_spec; split; reflexivity).
    destruct Hkept as [Hcfg Hconn].
    destruct (empty (fst (process_records self df))) eqn:Eg.
    + simpl. repeat split; try assumption; try discriminate.
      intros df' E. injection E as <-. now rewrite Eg.
    + destruct (psycopg2_connect W (db_config self)) eqn:Ec; simpl;
        repeat split; try assumption; try discriminate;
        intros df' E; injection E as <-; rewrite Eg;
        first [reflexivity | assumption].
  - unfold run_import. rewrite Hread. simpl.
    repeat split. intros df E. discriminate.
Qed.

End Report_stage.

Section Further_samples.
Import Reference Samples.


(** X3, witness: the first row of the same spreadsheet is rejected. *)
Lemma text_in_diameter_column_witness :
  pd_read_excel (world_of "d.xlsx" frame_text_diameter) "d.xlsx"
    = Some frame_text_diameter /\
  read_excel (world_of "d.xlsx" frame_text_diameter) "d.xlsx"
    = Some (strip_object_columns frame_text_diameter) /\
  index_of "Durchmesser_mm" (columns frame_text_diameter) = Some 2%nat /\
  nth_error (rows frame_text_diameter) 0 = Some row_valid /\
  nth_error row_valid 2 = Some (Num 150) /\
  (exists r1, nth_error (rows frame_text_diameter) 1 = Some r1 /\
              nth_error r1 2 = Some (Str " unbekannt ")) /\
  exists row,
    nth_error (iterrows (strip_object_columns frame_text_diameter)) 0
      = Some (0%nat, row) /\
    lookup "Durchmesser_mm" row = Some NaN /\
    is_ok (try_row 0 row) = false.
Proof.
  repeat (split; [reflexivity |]).
  split; [eexists; split; reflexivity |].
  eapply (@text_in_diameter_column_rejects_numbers runtime
            (world_of "d.xlsx" frame_text_diameter) "d.xlsx"
            frame_text_diameter _ 0 1 2 row_valid _ 150 " unbekannt ");
    reflexivity.
Defined.

(** X6, witness: scenario A walked from its end to its start. *)
Lemma create_line_geometry_reversed_witness :
  create_line_geometry (Num 2683000) (Num 1248000) (Num 2683100) (Num 1248100)
    = Ok (mkLine 2683000 1248000 2683100 1248100) /\
  create_line_geometry (Num 2683100) (Num 1248100) (Num 2683000) (Num 1248000)
    = Ok (mkLine 2683100 1248100 2683000 1248000).
Proof.
  assert (H : create_line_geometry (Num 2683000) (Num 1248000)
                (Num 2683100) (Num 1248100)
              = Ok (mkLine 2683000 1248000 2683100 1248100)) by reflexivity.
  split; [exact H |].
  exact (@create_line_geometry_reversed runtime _ _ _ _ _ H).
Defined.


(** X8, witness: the fields of the segment of scenario A. *)
Lemma segment_fields_witness :
  try_row 0 (series_of row_valid) = Ok segment_valid /\
  lookup "Leitung_ID" (series_of row_valid) = Some (leitung_id segment_valid) /\
  bemerkung segment_valid <> NaN /\
  import_datum segment_valid = now 0.
Proof.
  assert (H : try_row 0 (series_of row_valid) = Ok segment_valid)
    by (vm_compute; reflexivity).
  split; [exact H |].
  destruct (@segment_fields runtime _ _ _ H)
    as (Hid & _ & _ & _ & _ & Hrem & Hnow).
  repeat split; assumption.
Defined.


(** X13, witness: a spreadsheet with the old extension. *)
Lemma report_overwrites_input_witness :
  occurs_in ".xlsx" "daten.xls" = false /\
  In (CsvWritten "daten.xls" "utf-8-sig" [error_x_outside 1])
     (snd (run_import (init [])
             (world_of "daten.xls" (frame [row_valid; row_x_outside]))
             "daten.xls")) /\
  "daten.xls" = "daten.xls".
Proof.
  assert (H1 : occurs_in ".xlsx" "daten.xls" = false) by reflexivity.
  assert (H2 : In (CsvWritten "daten.xls" "utf-8-sig" [error_x_outside 1])
                 (snd (run_import (init [])
                         (world_of "daten.xls" (frame [row_valid; row_x_outside]))
                         "daten.xls")))
    by (vm_compute; right; right; left; reflexivity).
  split; [exact H1 |]. split; [exact H2 |].
  exact (@report_overwrites_input runtime _ _ _ _ _ _ H1 H2).
Defined.

(** X14, witness: the usual case. *)
Lemma replace_xlsx_witness :
  occurs_in ".xlsx" "daten/leitungen" = false /\
  replace ".xlsx" "_fehler.csv" "daten/leitungen.xlsx"
    = "daten/leitungen_fehler.csv".
Proof.
  assert (H : occurs_in ".xlsx" "daten/leitungen" = false) by reflexivity.
  split; [exact H |].
  exact (@replace_xlsx "_fehler.csv" "daten/leitungen" "" H).
Defined.

(** X15, witness: 21 records give 25 rows. *)
Lemma generate_test_data_rows_witness :
  Generator.X_Start (sample_draw 10) = Num (inject_Z 2683010) /\
  Generator.Y_Start (sample_draw 10) = Num 1248000 /\
  exists df,
    Generator.generate_test_data sample_draw 21 true = Generator.Built df /\
    List.length (rows df) = 25%nat /\
    columns df = required_columns.
Proof.
  assert (H1 : Generator.X_Start (sample_draw 10) = Num (inject_Z 2683010))
    by reflexivity.
  assert (H2 : Generator.Y_Start (sample_draw 10) = Num 1248000)
    by reflexivity.
  split; [exact H1 |]. split; [exact H2 |].
  eexists. split.
  - exact (proj1 (@generate_test_data_rows sample_draw 21 true _ _ H1 H2)
             (Nat.le_refl 21)).
  - split; reflexivity.
Defined.

(** X16, witness: 12 records. *)
Lemma generate_test_data_index_error_witness :
  (forall i, is_text (Generator.X_Start (sample_draw i)) = false /\
             is_text (Generator.Y_Start (sample_draw i)) = false) /\
  (10 <= 12 <= 17)%nat /\
  Generator.generate_test_data sample_draw 12 true
    = Generator.Failed Generator.IndexError.
Proof.
  assert (H1 : forall i,
             is_text (Generator.X_Start (sample_draw i)) = false /\
             is_text (Generator.Y_Start (sample_draw i)) = false)
    by (intros i; split; reflexivity).
  assert (H2 : (10 <= 12 <= 17)%nat) by lia.
  split; [exact H1 |]. split; [exact H2 |].
  exact (@generate_test_data_index_error sample_draw 12 H1 H2).
Defined.

(** X17, witness: the faulty copies of the drawn record at position 5. *)
Lemma faulty_copies_rejected_witness :
  is_ok (try_row 5 (combine required_columns
                      (Generator.values (sample_draw 5)))) = true /\
  Generator.X_Start (sample_draw 5) = Num (inject_Z 2683005) /\
  Generator.Y_Start (sample_draw 5) = Num 1248000 /\
  (inject_Z 2683005 + (1 # 10) <= 2840000)%Q /\
  (1248000 + (1 # 10) <= 1300000)%Q /\
  to_datetime (Str "32.13.2020")
    = Raise (LibraryError
        "Unknown datetime string format, unable to parse: 32.13.2020") /\
  try_row 21 (combine required_columns
                (Generator.values (Generator.error_record_3 (sample_draw 5))))
    = Raise (ValueError
        "Endpunkt ungültig: X-Koordinate nan außerhalb Schweizer Bereich") /\
  try_row 21 (combine required_columns
                (Generator.values (Generator.error_record_4 (sample_draw 5))))
    = Raise (LibraryError
        "Unknown datetime string format, unable to parse: 32.13.2020").
Proof.
  assert (H1 : is_ok (try_row 5 (combine required_columns
                 (Generator.values (sample_draw 5)))) = true)
    by (vm_compute; reflexivity).
  assert (H2 : Generator.X_Start (sample_draw 5) = Num (inject_Z 2683005))
    by reflexivity.
  assert (H3 : Generator.Y_Start (sample_draw 5) = Num 1248000)
    by reflexivity.
  assert (H4 : (inject_Z 2683005 + (1 # 10) <= 2840000)%Q)
    by (unfold Qle; simpl; lia).
  assert (H5 : (1248000 + (1 # 10) <= 1300000)%Q)
    by (unfold Qle; simpl; lia).
  assert (H6 : to_datetime (Str "32.13.2020")
               = Raise (LibraryError
                   "Unknown datetime string format, unable to parse: 32.13.2020"))
    by reflexivity.
  repeat (split; [assumption |]).
  destruct (@faulty_copies_rejected runtime 5 21 _ _ _ _ H1 H2 H3 H4 H5 H6)
    as (_ & _ & Hthird & Hfourth).
  split; [exact Hthird | exact Hfourth].
Defined.

End Further_samples.
